(** * LSM6 driver (LSM6.cpp): a shallow embedding and its properties

    The driver talks to an LSM6DS33 accelerometer/gyro over a two-wire bus
    ([twMaster]) and polls the Arduino millisecond clock ([millis]).  The
    embedding keeps the driver object as a record, the bus and the clock as
    an abstract platform whose calls are logged, and the C++ integer
    conversions written out on [Z]. *)

From Stdlib Require Import ZArith List Bool Lia.
Import ListNotations.
Local Open Scope Z_scope.

(** ** C++ integer types and conversions *)

Module CInt.

(** Conversion to [uint8_t], [uint16_t]: reduction modulo 2^8, 2^16. *)
Definition to_uint8 (v : Z) : Z := v mod 2 ^ 8.
Definition to_uint16 (v : Z) : Z := v mod 2 ^ 16.

(** Conversion to a signed type of [w] bits: the value modulo 2^w that
    lies in [-2^(w-1), 2^(w-1)). *)
Definition to_signed (w : Z) (v : Z) : Z :=
  (v + 2 ^ (w - 1)) mod 2 ^ w - 2 ^ (w - 1).

Definition to_int16 (v : Z) : Z := to_signed 16 v.

Section IntWidth.

(** The width of [int] is fixed by the target: 16 bits on AVR boards,
    32 bits on ARM boards.  Operands narrower than [int] are promoted
    to [int] before arithmetic. *)
Variable int_bits : Z.

(** [e << k] on an [int]: the shifted value brought back into [int]. *)
Definition shl_int (e k : Z) : Z := to_signed int_bits (Z.shiftl e k).

(** [c - s] for two [uint16_t] operands.  When [int] has 16 bits,
    [uint16_t] is [unsigned int] and the difference is taken modulo
    2^16; when [int] is wider, both operands are promoted to [int] and
    the difference is the signed one. *)
Definition sub_u16 (c s : Z) : Z :=
  if int_bits <=? 16 then to_uint16 (c - s) else c - s.

End IntWidth.

Definition is_uint8 (v : Z) : Prop := 0 <= v < 2 ^ 8.
Definition is_uint16 (v : Z) : Prop := 0 <= v < 2 ^ 16.

End CInt.

Import CInt.

(** ** The platform: two-wire bus and millisecond clock

    [twMaster] (TwoWire.h) and [millis] (Arduino core) are not part of the
    driver.  They are taken as an arbitrary deterministic state machine
    over an environment [E]: each call may change the environment and the
    calls that return something return a [Z]. *)

Class Platform (E : Type) : Type := {
  beginTransmission : Z -> E -> E;
  write : Z -> E -> E;
  endTransmission : E -> Z * E;
  requestFrom : Z -> Z -> E -> E;
  available : E -> Z * E;
  read : E -> Z * E;
  millis : E -> Z * E
}.

(** Every call the driver makes is recorded, with its arguments or its
    result, so that "no byte was read" or "no transaction was made" can be
    stated about a run. *)
Inductive Call : Type :=
| BeginTransmission (addr : Z)
| Write (b : Z)
| EndTransmission (status : Z)
| RequestFrom (addr n : Z)
| Available (n : Z)
| Read (b : Z)
| Millis (t : Z).

Record World (E : Type) : Type := mkWorld {
  env : E;
  calls : list Call          (* oldest call first *)
}.
Arguments mkWorld {E}.
Arguments env {E}.
Arguments calls {E}.

(** The bytes taken from the bus by [read()] along a log. *)
Fixpoint reads (l : list Call) : list Z :=
  match l with
  | [] => []
  | Read b :: l' => b :: reads l'
  | _ :: l' => reads l'
  end.

(** The [requestFrom] calls of a log. *)
Fixpoint requests (l : list Call) : list (Z * Z) :=
  match l with
  | [] => []
  | RequestFrom addr n :: l' => (addr, n) :: requests l'
  | _ :: l' => requests l'
  end.

(** The addresses of the transmissions begun along a log. *)
Fixpoint begins (l : list Call) : list Z :=
  match l with
  | [] => []
  | BeginTransmission addr :: l' => addr :: begins l'
  | _ :: l' => begins l'
  end.

(** The bytes handed to [write()] along a log. *)
Fixpoint writes (l : list Call) : list Z :=
  match l with
  | [] => []
  | Write b :: l' => b :: writes l'
  | _ :: l' => writes l'
  end.

(** The calls of the poll loop: [available()] and [millis()]. *)
Definition poll_call (c : Call) : Prop :=
  match c with
  | Available _ | Millis _ => True
  | _ => False
  end.

(** Computations over the logged world. *)
Definition IO (E A : Type) : Type := World E -> A * World E.

Definition ret {E A} (v : A) : IO E A := fun w => (v, w).

Definition bind {E A B} (c : IO E A) (k : A -> IO E B) : IO E B :=
  fun w => let (v, w') := c w in k v w'.

Declare Scope io_scope.
Delimit Scope io_scope with io.
Notation "x <- c ;; k" := (bind c (fun x => k))
  (at level 61, c at next level, right associativity) : io_scope.
Notation "c ;;; k" := (bind c (fun _ => k))
  (at level 61, right associativity) : io_scope.
Local Open Scope io_scope.

Section Calls.

Context {E : Type} {P : Platform E}.

Definition log (c : Call) (e : E) (w : World E) : World E :=
  mkWorld e (calls w ++ [c]).

Definition tw_beginTransmission (addr : Z) : IO E unit :=
  fun w => (tt, log (BeginTransmission addr) (beginTransmission addr (env w)) w).

Definition tw_write (b : Z) : IO E unit :=
  fun w => (tt, log (Write b) (write b (env w)) w).

Definition tw_endTransmission : IO E Z :=
  fun w => let (s, e) := endTransmission (env w) in (s, log (EndTransmission s) e w).

Definition tw_requestFrom (addr n : Z) : IO E unit :=
  fun w => (tt, log (RequestFrom addr n) (requestFrom addr n (env w)) w).

Definition tw_available : IO E Z :=
  fun w => let (n, e) := available (env w) in (n, log (Available n) e w).

Definition tw_read : IO E Z :=
  fun w => let (b, e) := read (env w) in (b, log (Read b) e w).

Definition now_millis : IO E Z :=
  fun w => let (t, e) := millis (env w) in (t, log (Millis t) e w).

End Calls.

(** ** The driver object *)

(** LSM6.cpp, lines 9-14. *)
Definition DS33_SA0_HIGH_ADDRESS : Z := 0x6b.   (* 0b1101011 *)
Definition DS33_SA0_LOW_ADDRESS : Z := 0x6a.    (* 0b1101010 *)
Definition TEST_REG_ERROR : Z := -1.
Definition DS33_WHO_ID : Z := 0x69.

(** Modelled from the spec: the enumerations [deviceType] and [sa0State]
    are declared in LSM6.h, which is not among the sources.  The
    specification gives them as one recognised device plus an "auto"
    value, and the address-select states high, low and auto; the
    enumerators are named as LSM6.cpp uses them. *)
Inductive deviceType : Type := device_DS33 | device_auto.
Inductive sa0State : Type := sa0_low | sa0_high | sa0_auto.

(** Modelled from the spec: the template [vector<T>] of LSM6.h, three
    scalar fields [x], [y], [z]. *)
Record vector (T : Type) : Type := mkVector { x : T; y : T; z : T }.
Arguments mkVector {T}.
Arguments x {T}.
Arguments y {T}.
Arguments z {T}.

(** The register addresses of [enum regAddr] that the driver uses.  The
    enumeration is declared in LSM6.h, which is not among the sources:
    the addresses are parameters of the development. *)
Class RegAddr : Type := {
  WHO_AM_I : Z;
  CTRL1_XL : Z;
  CTRL2_G : Z;
  CTRL3_C : Z;
  OUTX_L_G : Z;
  OUTX_L_XL : Z
}.

(** Modelled from the spec: the data members of [class LSM6], declared in
    LSM6.h, which is not among the sources.  These are the members that
    LSM6.cpp reads or assigns: the two result vectors of [int16_t], the
    last transaction status, the detected device, the 7-bit bus address,
    the timeout in milliseconds ([uint16_t], 0 for none) and the sticky
    timeout flag. *)
Record LSM6 : Type := mkLSM6 {
  a : vector Z;               (* vector<int16_t> a: accelerometer readings *)
  g : vector Z;               (* vector<int16_t> g: gyro readings *)
  last_status : Z;            (* status of the last write transmission *)
  _device : deviceType;
  address : Z;
  io_timeout : Z;             (* uint16_t *)
  did_timeout : bool
}.

Definition set_a (v : vector Z) (self : LSM6) : LSM6 :=
  mkLSM6 v (g self) (last_status self) (_device self) (address self)
         (io_timeout self) (did_timeout self).
Definition set_g (v : vector Z) (self : LSM6) : LSM6 :=
  mkLSM6 (a self) v (last_status self) (_device self) (address self)
         (io_timeout self) (did_timeout self).
Definition set_last_status (s : Z) (self : LSM6) : LSM6 :=
  mkLSM6 (a self) (g self) s (_device self) (address self)
         (io_timeout self) (did_timeout self).
Definition set_device (d : deviceType) (self : LSM6) : LSM6 :=
  mkLSM6 (a self) (g self) (last_status self) d (address self)
         (io_timeout self) (did_timeout self).
Definition set_address (ad : Z) (self : LSM6) : LSM6 :=
  mkLSM6 (a self) (g self) (last_status self) (_device self) ad
         (io_timeout self) (did_timeout self).
Definition set_io_timeout (t : Z) (self : LSM6) : LSM6 :=
  mkLSM6 (a self) (g self) (last_status self) (_device self) (address self)
         t (did_timeout self).
Definition set_did_timeout (b : bool) (self : LSM6) : LSM6 :=
  mkLSM6 (a self) (g self) (last_status self) (_device self) (address self)
         (io_timeout self) b.

Definition deviceType_eqb (d1 d2 : deviceType) : bool :=
  match d1, d2 with
  | device_DS33, device_DS33 | device_auto, device_auto => true
  | _, _ => false
  end.

Definition sa0State_eqb (s1 s2 : sa0State) : bool :=
  match s1, s2 with
  | sa0_low, sa0_low | sa0_high, sa0_high | sa0_auto, sa0_auto => true
  | _, _ => false
  end.

(** How the wait for the six bytes ended. *)
Inductive WaitExit : Type := Ready | TimedOut.

(** ** Constructor and accessors (LSM6.cpp, lines 18-44)

    The constructor sets [_device], [io_timeout] and [did_timeout]; the
    other members start with whatever the caller supplies. *)
Definition LSM6_new (a0 g0 : vector Z) (status0 address0 : Z) : LSM6 :=
  mkLSM6 a0 g0 status0 device_auto address0 0 false.

Definition timeoutOccurred (self : LSM6) : bool * LSM6 :=
  let tmp := did_timeout self in
  (tmp, set_did_timeout false self).

Definition setTimeout (timeout : Z) (self : LSM6) : LSM6 :=
  set_io_timeout (to_uint16 timeout) self.

Definition getTimeout (self : LSM6) : Z := io_timeout self.

(** The combination of a high and a low byte, [(int16_t)(h << 8 | l)]:
    both bytes are promoted to [int], the result is converted to
    [int16_t]. *)
Definition combine (int_bits : Z) (h l : Z) : Z :=
  to_int16 (Z.lor (shl_int int_bits h 8) l).

(** The reference decoding of a little-endian pair as a 16-bit
    two's-complement number: the unsigned value [l + 256 h], less 2^16
    when its sign bit is set. *)
Definition twos_complement16 (l h : Z) : Z :=
  let u := l + 256 * h in
  if u <? 2 ^ 15 then u else u - 2 ^ 16.

(** The timeout test of the poll loop,
    [((uint16_t)millis() - millis_start) > io_timeout], once [millis()]
    has returned [t]: [elapsed] is the left operand, the cast of [t] and
    the subtraction; [expired] is the comparison, unsigned when [int] has
    16 bits and signed when it is wider, which both are [<] on [Z]. *)
Definition elapsed (int_bits : Z) (t millis_start : Z) : Z :=
  sub_u16 int_bits (to_uint16 t) millis_start.

Definition expired (int_bits : Z) (timeout t millis_start : Z) : bool :=
  timeout <? elapsed int_bits t millis_start.

(** ** The driver's methods *)

Section Driver.

Context {E : Type} {P : Platform E} {R : RegAddr}.

(** The width of [int] on the target. *)
Variable int_bits : Z.

(** [testReg] (lines 223-241).  The result is an [int16_t]. *)
Definition testReg (addr reg : Z) : IO E Z :=
  tw_beginTransmission addr ;;;
  tw_write (to_uint8 reg) ;;;
  status <- tw_endTransmission ;;
  if negb (status =? 0) then ret TEST_REG_ERROR
  else
    tw_requestFrom addr 1 ;;;
    n <- tw_available ;;
    if negb (n =? 0) then (b <- tw_read ;; ret (to_int16 b))
    else ret TEST_REG_ERROR.

(** One candidate of the detection: the guard on [sa0] and then the
    probe, [sa0 != other && testReg(addr, WHO_AM_I) == DS33_WHO_ID].
    The probe is not made when the guard fails. *)
Definition probe (sa0 other : sa0State) (addr : Z) : IO E bool :=
  if negb (sa0State_eqb sa0 other) then
    r <- testReg addr WHO_AM_I ;; ret (r =? DS33_WHO_ID)
  else ret false.

Definition resolve_device (device : deviceType) : deviceType :=
  if deviceType_eqb device device_auto then device_DS33 else device.

(** The detection block of [init] (lines 52-66): the values of the
    locals [device] and [sa0] after it. *)
Definition detect (device : deviceType) (sa0 : sa0State)
  : IO E (deviceType * sa0State) :=
  if deviceType_eqb device device_auto || deviceType_eqb device device_DS33 then
    high <- probe sa0 sa0_low DS33_SA0_HIGH_ADDRESS ;;
    if high then ret (resolve_device device, sa0_high)
    else
      low <- probe sa0 sa0_high DS33_SA0_LOW_ADDRESS ;;
      if low then ret (resolve_device device, sa0_low)
      else ret (device, sa0)
  else ret (device, sa0).

(** The bus address of a device and SA0 state: the [switch] of [init]
    (lines 77-82), which leaves [address] alone for a device that is not
    [device_DS33]. *)
Definition bus_address (device : deviceType) (sa0 : sa0State) (old : Z) : Z :=
  match device with
  | device_DS33 =>
      if sa0State_eqb sa0 sa0_high then DS33_SA0_HIGH_ADDRESS
      else DS33_SA0_LOW_ADDRESS
  | device_auto => old
  end.

(** Lines 75-84 of [init]. *)
Definition store_identity (device : deviceType) (sa0 : sa0State)
           (self : LSM6) : LSM6 :=
  set_address (bus_address device sa0 (address self)) (set_device device self).

Definition unresolved (device : deviceType) (sa0 : sa0State) : bool :=
  deviceType_eqb device device_auto || sa0State_eqb sa0 sa0_auto.

(** [init] (lines 46-85). *)
Definition init (device : deviceType) (sa0 : sa0State) (self : LSM6)
  : IO E (bool * LSM6) :=
  if unresolved device sa0 then
    found <- detect device sa0 ;;
    let (device', sa0') := found in
    if unresolved device' sa0' then ret (false, self)
    else ret (true, store_identity device' sa0' self)
  else ret (true, store_identity device sa0 self).

(** [writeReg] (lines 122-128). *)
Definition writeReg (reg value : Z) (self : LSM6) : IO E LSM6 :=
  tw_beginTransmission (address self) ;;;
  tw_write (to_uint8 reg) ;;;
  tw_write (to_uint8 value) ;;;
  status <- tw_endTransmission ;;
  ret (set_last_status (to_uint8 status) self).


(** [enableDefault] (lines 98-120). *)
Definition enableDefault (self : LSM6) : IO E LSM6 :=
  if deviceType_eqb (_device self) device_DS33 then
    s1 <- writeReg CTRL1_XL 0x80 self ;;
    s2 <- writeReg CTRL2_G 0x80 s1 ;;
    writeReg CTRL3_C 0x04 s2
  else ret self.

(** The start of [readAcc] and [readGyro] (lines 147-153): the register
    address is written, six bytes are requested and the clock is read
    into [millis_start]. *)
Definition request_block (reg : Z) (self : LSM6) : IO E Z :=
  tw_beginTransmission (address self) ;;;
  tw_write (to_uint8 reg) ;;;
  _ <- tw_endTransmission ;;
  tw_requestFrom (address self) 6 ;;;
  t <- now_millis ;;
  ret (to_uint16 t).

(** The poll loop (lines 154-160).  [fuel] bounds the number of
    iterations; [None] means the loop is still running after [fuel]
    iterations.  [millis()] is called only when [io_timeout > 0]. *)
Fixpoint wait_block (fuel : nat) (timeout millis_start : Z) (w : World E)
  : option (WaitExit * World E) :=
  match fuel with
  | O => None
  | S fuel' =>
      let (n, w1) := tw_available w in
      if n <? 6 then
        if 0 <? timeout then
          let (t, w2) := now_millis w1 in
          if expired int_bits timeout t millis_start then Some (TimedOut, w2)
          else wait_block fuel' timeout millis_start w2
        else wait_block fuel' timeout millis_start w1
      else Some (Ready, w1)
  end.

(** The six reads and the combination of the bytes (lines 162-172). *)
Definition read_block : IO E (vector Z) :=
  xl <- tw_read ;;
  xh <- tw_read ;;
  yl <- tw_read ;;
  yh <- tw_read ;;
  zl <- tw_read ;;
  zh <- tw_read ;;
  ret (mkVector (combine int_bits (to_uint8 xh) (to_uint8 xl))
                (combine int_bits (to_uint8 yh) (to_uint8 yl))
                (combine int_bits (to_uint8 zh) (to_uint8 zl))).

(** [readAcc] (lines 145-173). *)
Definition readAcc (fuel : nat) (self : LSM6) (w : World E)
  : option (LSM6 * World E) :=
  let (millis_start, w0) := request_block OUTX_L_XL self w in
  match wait_block fuel (io_timeout self) millis_start w0 with
  | None => None
  | Some (TimedOut, w1) => Some (set_did_timeout true self, w1)
  | Some (Ready, w1) =>
      let (v, w2) := read_block w1 in Some (set_a v self, w2)
  end.

(** [readGyro] (lines 176-204). *)
Definition readGyro (fuel : nat) (self : LSM6) (w : World E)
  : option (LSM6 * World E) :=
  let (millis_start, w0) := request_block OUTX_L_G self w in
  match wait_block fuel (io_timeout self) millis_start w0 with
  | None => None
  | Some (TimedOut, w1) => Some (set_did_timeout true self, w1)
  | Some (Ready, w1) =>
      let (v, w2) := read_block w1 in Some (set_g v self, w2)
  end.

(** The two methods differ in the first register of the block and in the
    vector that is assigned: [read_vector] is their common shape, used
    to state facts about both. *)
Definition read_vector (reg : Z) (store : vector Z -> LSM6 -> LSM6)
           (fuel : nat) (self : LSM6) (w : World E)
  : option (LSM6 * World E) :=
  let (millis_start, w0) := request_block reg self w in
  match wait_block fuel (io_timeout self) millis_start w0 with
  | None => None
  | Some (TimedOut, w1) => Some (set_did_timeout true self, w1)
  | Some (Ready, w1) =>
      let (v, w2) := read_block w1 in Some (store v self, w2)
  end.

(** [read] (lines 207-211). *)
Definition read_all (fuel : nat) (self : LSM6) (w : World E)
  : option (LSM6 * World E) :=
  match readAcc fuel self w with
  | None => None
  | Some (self', w') => readGyro fuel self' w'
  end.

(** The world at the start of the [k]-th iteration of the poll loop, as
    long as no iteration has left it: each iteration calls [available()]
    and, when a timeout is configured, [millis()]. *)
Fixpoint poll_world (timeout : Z) (k : nat) (w : World E) : World E :=
  match k with
  | O => w
  | S k' =>
      let w1 := snd (tw_available w) in
      poll_world timeout k' (if 0 <? timeout then snd (now_millis w1) else w1)
  end.

(** What [available()] and [millis()] answer in the [k]-th iteration. *)
Definition available_at (timeout : Z) (k : nat) (w : World E) : Z :=
  fst (tw_available (poll_world timeout k w)).

Definition millis_at (timeout : Z) (k : nat) (w : World E) : Z :=
  fst (now_millis (snd (tw_available (poll_world timeout k w)))).

(** The world when the poll loop starts, in a read of the block at
    [reg]. *)
Definition poll_start (reg : Z) (self : LSM6) (w : World E) : World E :=
  snd (request_block reg self w).

Definition start_time (reg : Z) (self : LSM6) (w : World E) : Z :=
  fst (request_block reg self w).

(** Iteration [k] of the poll loop does not leave it: fewer than six
    bytes are available and, when a timeout is configured, it has not
    expired. *)
Definition pending (timeout millis_start : Z) (w : World E) (k : nat) : Prop :=
  available_at timeout k w < 6 /\
  (0 < timeout ->
   expired int_bits timeout (millis_at timeout k w) millis_start = false).

(** A read of the block at [reg] gives up in iteration [n]: no iteration
    up to [n] sees six bytes, and iteration [n] is the first one in which
    the timeout has expired. *)
Definition gives_up (reg : Z) (self : LSM6) (w : World E) (n : nat) : Prop :=
  let w0 := poll_start reg self w in
  let s := start_time reg self w in
  let t := io_timeout self in
  (forall k, (k <= n)%nat -> available_at t k w0 < 6) /\
  (forall k, (k < n)%nat -> expired int_bits t (millis_at t k w0) s = false) /\
  expired int_bits t (millis_at t n w0) s = true.

(** The next [n] bytes that [read()] hands out from a world, in order, and
    the world after them. *)
Fixpoint next_bytes (n : nat) (w : World E) : list Z * World E :=
  match n with
  | O => ([], w)
  | S n' =>
      let (b, w1) := tw_read w in
      let (bs, w2) := next_bytes n' w1 in
      (b :: bs, w2)
  end.

End Driver.

(** ** Detection as the specification words it

    The candidates are tried in the order high, low; a candidate is left
    out when the caller pinned SA0 to the other value; the first candidate
    whose identity register answers the chip's identity is accepted as the
    SA0 state, and the device is then the DS33. *)

Section DetectionSpec.

Context {E : Type} {P : Platform E} {R : RegAddr}.

Definition admits (sa0 candidate : sa0State) : bool :=
  sa0State_eqb sa0 sa0_auto || sa0State_eqb sa0 candidate.

Definition candidates (sa0 : sa0State) : list sa0State :=
  filter (admits sa0) [sa0_high; sa0_low].

Definition candidate_address (candidate : sa0State) : Z :=
  match candidate with
  | sa0_high => DS33_SA0_HIGH_ADDRESS
  | _ => DS33_SA0_LOW_ADDRESS
  end.

Definition identifies (addr : Z) : IO E bool :=
  r <- testReg addr WHO_AM_I ;; ret (r =? DS33_WHO_ID).

Fixpoint first_accepted (cs : list sa0State) : IO E (option sa0State) :=
  match cs with
  | [] => ret None
  | c :: cs' =>
      ok <- identifies (candidate_address c) ;;
      if ok then ret (Some c) else first_accepted cs'
  end.

Definition init_by_candidates (sa0 : sa0State) (self : LSM6)
  : IO E (bool * LSM6) :=
  found <- first_accepted (candidates sa0) ;;
  match found with
  | Some c =>
      ret (true, set_address (candidate_address c) (set_device device_DS33 self))
  | None => ret (false, self)
  end.

End DetectionSpec.

(** ** A simulated bus and clock

    One device may sit at each bus address.  A transmission to an absent
    device is not acknowledged; a request to a present device delivers
    consecutive registers starting at the register pointer, which become
    available after [latency] polls; the clock advances by [tick]
    milliseconds at each reading. *)

Module Sim.

Record Bus : Type := mkBus {
  present : Z -> bool;
  regs : Z -> Z;
  selected : Z;
  txbuf : list Z;
  pointer : Z;
  rx : list Z;
  latency : nat;
  clock : Z;
  tick : Z
}.

Definition commit (b : Bus) : Bus :=
  match txbuf b with
  | [r] =>
      mkBus (present b) (regs b) (selected b) [] r (rx b) (latency b)
            (clock b) (tick b)
  | [r; v] =>
      mkBus (present b) (fun i => if i =? r then v else regs b i) (selected b)
            [] r (rx b) (latency b) (clock b) (tick b)
  | _ =>
      mkBus (present b) (regs b) (selected b) [] (pointer b) (rx b)
            (latency b) (clock b) (tick b)
  end.

Definition sim_begin (addr : Z) (b : Bus) : Bus :=
  mkBus (present b) (regs b) addr [] (pointer b) (rx b) (latency b)
        (clock b) (tick b).

Definition sim_write (v : Z) (b : Bus) : Bus :=
  mkBus (present b) (regs b) (selected b) (txbuf b ++ [v]) (pointer b)
        (rx b) (latency b) (clock b) (tick b).

Definition sim_end (b : Bus) : Z * Bus :=
  if present b (selected b) then (0, commit b)
  else (2, mkBus (present b) (regs b) (selected b) [] (pointer b) (rx b)
                 (latency b) (clock b) (tick b)).

Definition sim_request (addr n : Z) (b : Bus) : Bus :=
  mkBus (present b) (regs b) (selected b) (txbuf b) (pointer b)
        (if present b addr
         then map (fun i => regs b (pointer b + Z.of_nat i)) (seq 0 (Z.to_nat n))
         else [])
        (latency b) (clock b) (tick b).

Definition sim_available (b : Bus) : Z * Bus :=
  match latency b with
  | O => (Z.of_nat (length (rx b)), b)
  | S k =>
      (0, mkBus (present b) (regs b) (selected b) (txbuf b) (pointer b)
                (rx b) k (clock b) (tick b))
  end.

Definition sim_read (b : Bus) : Z * Bus :=
  match rx b with
  | [] => (-1, b)
  | v :: r =>
      (v, mkBus (present b) (regs b) (selected b) (txbuf b) (pointer b) r
                (latency b) (clock b) (tick b))
  end.

Definition sim_millis (b : Bus) : Z * Bus :=
  (clock b,
   mkBus (present b) (regs b) (selected b) (txbuf b) (pointer b) (rx b)
         (latency b) ((clock b + tick b) mod 2 ^ 32) (tick b)).

Definition platform : Platform Bus :=
  Build_Platform Bus sim_begin sim_write sim_end sim_request
                 sim_available sim_read sim_millis.

(** The register addresses of the LSM6DS33 data sheet. *)
Definition ds33_map : RegAddr :=
  Build_RegAddr 0x0f 0x10 0x11 0x12 0x22 0x28.

(** The registers of a device at rest: the identity and two blocks of
    samples. *)
Definition ds33_regs (i : Z) : Z :=
  if i =? 0x0f then 0x69
  else if i =? 0x22 then 0x10 else if i =? 0x23 then 0x00
  else if i =? 0x24 then 0xfe else if i =? 0x25 then 0xff
  else if i =? 0x26 then 0x00 else if i =? 0x27 then 0x80
  else if i =? 0x28 then 0x34 else if i =? 0x29 then 0x12
  else if i =? 0x2a then 0xff else if i =? 0x2b then 0x7f
  else if i =? 0x2c then 0x9c else if i =? 0x2d then 0xff
  else 0.

(** A bus with devices at the addresses [at_addr] accepts, answering
    after [lat] polls, with the clock at [t0]. *)
Definition bus (at_addr : Z -> bool) (lat : nat) (t0 step : Z) : Bus :=
  mkBus at_addr ds33_regs 0 [] 0 [] lat t0 step.

Definition world (b : Bus) : World Bus := mkWorld b [].

Definition only_low (addr : Z) : bool := addr =? DS33_SA0_LOW_ADDRESS.
Definition only_high (addr : Z) : bool := addr =? DS33_SA0_HIGH_ADDRESS.
Definition nobody (addr : Z) : bool := false.

(** A driver object as the constructor leaves it, with zeroed vectors. *)
Definition fresh : LSM6 := LSM6_new (mkVector 0 0 0) (mkVector 0 0 0) 0 0.

(** A driver object after a successful start, with old readings. *)
Definition running (timeout : Z) : LSM6 :=
  mkLSM6 (mkVector 1 2 3) (mkVector 4 5 6) 0 device_DS33
         DS33_SA0_LOW_ADDRESS timeout false.

(** A bus with nothing to deliver: no byte received and none on its way. *)
Definition quiet (w : World Bus) : Prop :=
  rx (env w) = [] /\ latency (env w) = O.

End Sim.

(** * Properties *)

(** ** Integer conversions *)

Lemma to_signed_congr (w v : Z) :
  0 < w -> exists k, to_signed w v = v - k * 2 ^ w.
Proof.
  intros Hw. unfold to_signed.
  exists ((v + 2 ^ (w - 1)) / 2 ^ w).
  assert (Hp : 0 < 2 ^ w) by (apply Z.pow_pos_nonneg; lia).
  pose proof (Z.div_mod (v + 2 ^ (w - 1)) (2 ^ w)) as Hdm.
  lia.
Qed.

Lemma to_signed_small (w v : Z) :
  0 < w -> - 2 ^ (w - 1) <= v < 2 ^ (w - 1) -> to_signed w v = v.
Proof.
  intros Hw Hv. unfold to_signed.
  assert (Hd : 2 ^ w = 2 * 2 ^ (w - 1)).
  { replace w with (Z.succ (w - 1)) at 1 by lia. apply Z.pow_succ_r. lia. }
  rewrite Z.mod_small; lia.
Qed.

Lemma to_int16_mod (v : Z) :
  to_int16 v = let u := v mod 2 ^ 16 in if u <? 2 ^ 15 then u else u - 2 ^ 16.
Proof.
  unfold to_int16, to_signed. cbv zeta.
  change (2 ^ (16 - 1)) with 32768. change (2 ^ 16) with 65536. change (2 ^ 15) with 32768.
  pose proof (Z.mod_pos_bound v 65536 ltac:(lia)) as Hb.
  rewrite <- (Zplus_mod_idemp_l v 32768 65536).
  destruct (Z.ltb_spec (v mod 65536) 32768) as [Hlt | Hge].
  - rewrite Z.mod_small; lia.
  - replace (v mod 65536 + 32768) with ((v mod 65536 - 32768) + 1 * 65536) by lia.
    rewrite Z.mod_add by lia. rewrite Z.mod_small; lia.
Qed.

Lemma lor_low_byte (q l : Z) :
  0 <= l < 2 ^ 8 -> Z.lor (q * 2 ^ 8) l = q * 2 ^ 8 + l.
Proof.
  intros Hl.
  rewrite <- Z.add_lor_land.
  assert (Hz : Z.land (q * 2 ^ 8) l = 0).
  { apply Z.bits_inj'. intros n Hn.
    rewrite Z.land_spec, Z.bits_0.
    destruct (Z.ltb_spec n 8) as [Hlt | Hge].
    - rewrite Z.mul_pow2_bits_low by assumption. reflexivity.
    - destruct (Z.eq_dec l 0) as [-> | Hnz].
      + rewrite Z.bits_0. apply andb_false_r.
      + rewrite (Z.bits_above_log2 l n).
        * apply andb_false_r.
        * lia.
        * assert (Z.log2 l < 8) by (apply Z.log2_lt_pow2; lia). lia. }
  lia.
Qed.

Lemma combine_decodes (int_bits l h : Z) :
  16 <= int_bits -> is_uint8 l -> is_uint8 h ->
  combine int_bits h l = twos_complement16 l h.
Proof.
  unfold is_uint8, combine, shl_int, twos_complement16. intros Hw Hl Hh.
  rewrite Z.shiftl_mul_pow2 by lia.
  destruct (to_signed_congr int_bits (h * 2 ^ 8) ltac:(lia)) as [k Hk].
  rewrite Hk.
  assert (Hsplit : 2 ^ int_bits = 2 ^ (int_bits - 8) * 2 ^ 8).
  { rewrite <- Z.pow_add_r by lia. f_equal. lia. }
  replace (h * 2 ^ 8 - k * 2 ^ int_bits)
    with ((h - k * 2 ^ (int_bits - 8)) * 2 ^ 8) by (rewrite Hsplit; ring).
  rewrite lor_low_byte by assumption.
  rewrite to_int16_mod. cbv zeta.
  replace ((h - k * 2 ^ (int_bits - 8)) * 2 ^ 8 + l)
    with ((l + 256 * h) + (- k * 2 ^ (int_bits - 16)) * 2 ^ 16).
  2:{ assert (Hs8 : 2 ^ (int_bits - 8) = 2 ^ (int_bits - 16) * 2 ^ 8).
      { rewrite <- Z.pow_add_r by lia. f_equal. lia. }
      rewrite Hs8. change (2 ^ 8) with 256. change (2 ^ 16) with 65536. ring. }
  rewrite Z.mod_add by (change (2 ^ 16) with 65536; lia).
  change (2 ^ 8) with 256 in *. change (2 ^ 16) with 65536.
  rewrite Z.mod_small by lia. reflexivity.
Qed.

(** ** Call logs *)

Section Logs.
Lemma reads_app (l1 l2 : list Call) : reads (l1 ++ l2) = reads l1 ++ reads l2.
Proof.
  induction l1 as [| c l1 IH]; simpl; [reflexivity |].
  destruct c; simpl; rewrite ?IH; reflexivity.
Qed.

Lemma requests_app (l1 l2 : list Call) :
  requests (l1 ++ l2) = requests l1 ++ requests l2.
Proof.
  induction l1 as [| c l1 IH]; simpl; [reflexivity |].
  destruct c; simpl; rewrite ?IH; reflexivity.
Qed.

Lemma begins_app (l1 l2 : list Call) :
  begins (l1 ++ l2) = begins l1 ++ begins l2.
Proof.
  induction l1 as [| c l1 IH]; simpl; [reflexivity |].
  destruct c; simpl; rewrite ?IH; reflexivity.
Qed.
End Logs.

Section Waiting.

Context {E : Type} {P : Platform E} {R : RegAddr}.
Variable int_bits : Z.

Local Abbreviation pending := (pending int_bits).
Local Abbreviation wait_block := (wait_block int_bits).

Lemma available_calls (w : World E) :
  calls (snd (tw_available w)) = calls w ++ [Available (fst (tw_available w))].
Proof. unfold tw_available. destruct (available (env w)); reflexivity. Qed.

Lemma millis_calls (w : World E) :
  calls (snd (now_millis w)) = calls w ++ [Millis (fst (now_millis w))].
Proof. unfold now_millis. destruct (millis (env w)); reflexivity. Qed.

Lemma read_calls (w : World E) :
  calls (snd (tw_read w)) = calls w ++ [Read (fst (tw_read w))].
Proof. unfold tw_read. destruct (read (env w)); reflexivity. Qed.

Lemma end_calls (w : World E) :
  calls (snd (tw_endTransmission w))
  = calls w ++ [EndTransmission (fst (tw_endTransmission w))].
Proof. unfold tw_endTransmission. destruct (endTransmission (env w)); reflexivity. Qed.

Lemma poll_world_reads (timeout : Z) (k : nat) (w : World E) :
  reads (calls (poll_world timeout k w)) = reads (calls w).
Proof.
  revert w. induction k as [| k IH]; intros w; simpl; [reflexivity |].
  rewrite IH. destruct (0 <? timeout).
  - rewrite millis_calls, reads_app, available_calls, reads_app. simpl.
    rewrite !app_nil_r. reflexivity.
  - rewrite available_calls, reads_app. simpl. apply app_nil_r.
Qed.

Lemma request_block_reads (reg : Z) (self : LSM6) (w : World E) :
  reads (calls (poll_start reg self w)) = reads (calls w).
Proof.
  unfold poll_start, request_block, bind, ret.
  unfold tw_beginTransmission, tw_write, tw_requestFrom.
  match goal with |- context [tw_endTransmission ?w0] =>
    pose proof (end_calls w0) as He; destruct (tw_endTransmission w0) as [s w1] end.
  match goal with |- context [now_millis ?w0] =>
    pose proof (millis_calls w0) as Hm; destruct (now_millis w0) as [t w2] end.
  simpl in *. rewrite Hm. simpl. rewrite reads_app. simpl. rewrite He.
  rewrite !reads_app. simpl. rewrite !app_nil_r. reflexivity.
Qed.

Lemma wait_block_step (timeout start : Z) (fuel : nat) (w : World E) :
  pending timeout start w 0 ->
  wait_block (S fuel) timeout start w
  = wait_block fuel timeout start (poll_world timeout 1 w).
Proof.
  unfold pending, available_at, millis_at. simpl. intros [Hav Hex].
  destruct (tw_available w) as [n w1]. simpl in *.
  destruct (Z.ltb_spec n 6) as [_ | Hn]; [| lia].
  destruct (Z.ltb_spec 0 timeout) as [Ht | Ht]; [| reflexivity].
  specialize (Hex Ht). destruct (now_millis w1) as [t w2]. simpl in *.
  rewrite Hex. reflexivity.
Qed.

Lemma pending_shift (timeout start : Z) (w : World E) (k : nat) :
  pending timeout start w (S k)
  <-> pending timeout start (poll_world timeout 1 w) k.
Proof. unfold pending, available_at, millis_at. reflexivity. Qed.

Lemma wait_block_skip (timeout start : Z) (n fuel : nat) (w : World E) :
  (forall k, (k < n)%nat -> pending timeout start w k) ->
  wait_block (n + fuel) timeout start w
  = wait_block fuel timeout start (poll_world timeout n w).
Proof.
  revert w. induction n as [| n IH]; intros w Hp; [reflexivity |].
  change (S n + fuel)%nat with (S (n + fuel)).
  rewrite wait_block_step by (apply Hp; lia).
  rewrite IH.
  - reflexivity.
  - intros k Hk. apply (proj1 (pending_shift timeout start w k)). apply Hp. lia.
Qed.

(** The loop goes on as long as fewer than six bytes are available and
    the timeout, if any, has not expired. *)
Lemma wait_block_pending (timeout start : Z) (fuel : nat) (w : World E) :
  (forall k, (k < fuel)%nat -> pending timeout start w k) ->
  wait_block fuel timeout start w = None.
Proof.
  intros Hp. replace fuel with (fuel + 0)%nat by lia.
  rewrite wait_block_skip by assumption. reflexivity.
Qed.

Lemma wait_block_ready (timeout start : Z) (n fuel : nat) (w : World E) :
  (forall k, (k < n)%nat -> pending timeout start w k) ->
  6 <= available_at timeout n w ->
  (n < fuel)%nat ->
  wait_block fuel timeout start w
  = Some (Ready, snd (tw_available (poll_world timeout n w))).
Proof.
  intros Hp Hav Hf.
  replace fuel with (n + S (fuel - S n))%nat by lia.
  rewrite wait_block_skip by assumption.
  unfold available_at in Hav. simpl.
  destruct (tw_available (poll_world timeout n w)) as [m w1]. simpl in *.
  destruct (Z.ltb_spec m 6); [lia | reflexivity].
Qed.

Lemma wait_block_timed_out (timeout start : Z) (n fuel : nat) (w : World E) :
  0 < timeout ->
  (forall k, (k < n)%nat -> pending timeout start w k) ->
  available_at timeout n w < 6 ->
  expired int_bits timeout (millis_at timeout n w) start = true ->
  (n < fuel)%nat ->
  wait_block fuel timeout start w
  = Some (TimedOut,
          snd (now_millis (snd (tw_available (poll_world timeout n w))))).
Proof.
  intros Ht Hp Hav Hex Hf.
  replace fuel with (n + S (fuel - S n))%nat by lia.
  rewrite wait_block_skip by assumption.
  unfold available_at, millis_at in *. simpl.
  destruct (tw_available (poll_world timeout n w)) as [m w1]. simpl in *.
  destruct (Z.ltb_spec m 6); [| lia].
  destruct (Z.ltb_spec 0 timeout); [| lia].
  destruct (now_millis w1) as [t w2]. simpl in *. rewrite Hex. reflexivity.
Qed.

(** Every exit of the loop is one of the two above. *)
Lemma wait_block_exit (timeout start : Z) (fuel : nat) (w w' : World E)
      (how : WaitExit) :
  wait_block fuel timeout start w = Some (how, w') ->
  exists n, (n < fuel)%nat /\
    (forall k, (k < n)%nat -> pending timeout start w k) /\
    match how with
    | Ready =>
        6 <= available_at timeout n w /\
        w' = snd (tw_available (poll_world timeout n w))
    | TimedOut =>
        0 < timeout /\ available_at timeout n w < 6 /\
        expired int_bits timeout (millis_at timeout n w) start = true /\
        w' = snd (now_millis (snd (tw_available (poll_world timeout n w))))
    end.
Proof.
  revert w. induction fuel as [| fuel IH]; intros w Hrun; [discriminate |].
  assert (Hcases :
    pending timeout start w 0 \/
    (6 <= available_at timeout 0 w) \/
    (0 < timeout /\ available_at timeout 0 w < 6 /\
     expired int_bits timeout (millis_at timeout 0 w) start = true)).
  { unfold pending. destruct (Z.lt_ge_cases (available_at timeout 0 w) 6) as [Hlt | Hge].
    - destruct (Z.lt_ge_cases 0 timeout) as [Ht | Ht].
      + destruct (expired int_bits timeout (millis_at timeout 0 w) start) eqn:Hex.
        * right. right. auto.
        * left. auto.
      + left. split; [assumption | lia].
    - right. left. assumption. }
  destruct Hcases as [Hp | [Hr | (Ht & Hav & Hex)]].
  - rewrite wait_block_step in Hrun by assumption.
    destruct (IH _ Hrun) as (n & Hn & Hpn & Hend).
    exists (S n). split; [lia |]. split.
    + intros [| k] Hk; [assumption |].
      apply (proj2 (pending_shift timeout start w k)). apply Hpn. lia.
    + exact Hend.
  - rewrite (wait_block_ready timeout start 0 (S fuel) w) in Hrun;
      [| intros k Hk; lia | assumption | lia].
    inversion Hrun; subst. exists O. split; [lia |]. split; [intros k Hk; lia |].
    split; [assumption | reflexivity].
  - rewrite (wait_block_timed_out timeout start 0 (S fuel) w) in Hrun;
      [| assumption | intros k Hk; lia | assumption | assumption | lia].
    inversion Hrun; subst. exists O. split; [lia |]. split; [intros k Hk; lia |].
    auto.
Qed.
End Waiting.

(** ** Reading a block *)

Section Reading.

Context {E : Type} {P : Platform E} {R : RegAddr}.
Variable int_bits : Z.

Lemma read_vector_split (reg : Z) (store : vector Z -> LSM6 -> LSM6)
      (fuel : nat) (self : LSM6) (w : World E) :
  read_vector int_bits reg store fuel self w
  = match wait_block int_bits fuel (io_timeout self)
                     (start_time reg self w) (poll_start reg self w) with
    | None => None
    | Some (TimedOut, w1) => Some (set_did_timeout true self, w1)
    | Some (Ready, w1) =>
        Some (store (fst (read_block int_bits w1)) self,
              snd (read_block int_bits w1))
    end.
Proof.
  unfold read_vector, start_time, poll_start.
  destruct (request_block reg self w) as [s w0]. simpl.
  destruct (wait_block int_bits fuel (io_timeout self) s w0) as [[[|] w1] |];
    try reflexivity.
  destruct (read_block int_bits w1); reflexivity.
Qed.

Lemma read_vector_gives_up (reg : Z) (store : vector Z -> LSM6 -> LSM6)
      (self : LSM6) (w : World E) (n fuel : nat) :
  0 < io_timeout self -> gives_up int_bits reg self w n -> (n < fuel)%nat ->
  exists w',
    read_vector int_bits reg store fuel self w
    = Some (set_did_timeout true self, w') /\
    reads (calls w') = reads (calls w) /\
    w' = snd (now_millis
                (snd (tw_available
                        (poll_world (io_timeout self) n (poll_start reg self w))))).
Proof.
  intros Ht (Hav & Hex & Hlast) Hf. cbv zeta in *.
  rewrite read_vector_split.
  rewrite (wait_block_timed_out int_bits _ _ n fuel); try assumption.
  - eexists. split; [reflexivity |]. split; [| reflexivity].
    rewrite millis_calls, reads_app, available_calls, reads_app.
    rewrite poll_world_reads, request_block_reads. simpl.
    rewrite !app_nil_r. reflexivity.
  - intros k Hk. split; [apply Hav; lia | intros _; apply Hex; lia].
  - apply Hav. lia.
Qed.

Lemma read_vector_flag_set (reg : Z) (store : vector Z -> LSM6 -> LSM6)
      (fuel : nat) (self self' : LSM6) (w w' : World E) :
  (forall v s, did_timeout (store v s) = did_timeout s) ->
  read_vector int_bits reg store fuel self w = Some (self', w') ->
  did_timeout self = false -> did_timeout self' = true ->
  self' = set_did_timeout true self /\ reads (calls w') = reads (calls w).
Proof.
  intros Hstore Hrun Hold Hnew. rewrite read_vector_split in Hrun.
  destruct (wait_block int_bits fuel (io_timeout self) (start_time reg self w)
              (poll_start reg self w)) as [[[|] w1] |] eqn:Hwait;
    inversion Hrun; subst; clear Hrun.
  - rewrite Hstore in Hnew. congruence.
  - split; [reflexivity |].
    apply wait_block_exit in Hwait. destruct Hwait as (n & _ & _ & _ & _ & _ & ->).
    rewrite millis_calls, reads_app, available_calls, reads_app.
    rewrite poll_world_reads, request_block_reads. simpl.
    rewrite !app_nil_r. reflexivity.
Qed.

Lemma read_vector_no_timeout_waits (reg : Z) (store : vector Z -> LSM6 -> LSM6)
      (self : LSM6) (w : World E) (fuel : nat) :
  io_timeout self = 0 ->
  (forall k, (k < fuel)%nat -> available_at 0 k (poll_start reg self w) < 6) ->
  read_vector int_bits reg store fuel self w = None.
Proof.
  intros Ht Hav. rewrite read_vector_split, Ht.
  rewrite wait_block_pending; [reflexivity |].
  intros k Hk. split; [apply Hav; assumption | lia].
Qed.

Lemma read_vector_no_timeout_ready (reg : Z) (store : vector Z -> LSM6 -> LSM6)
      (self : LSM6) (w : World E) (n fuel : nat) :
  io_timeout self = 0 ->
  (forall k, (k < n)%nat -> available_at 0 k (poll_start reg self w) < 6) ->
  6 <= available_at 0 n (poll_start reg self w) ->
  (n < fuel)%nat ->
  exists v w',
    read_vector int_bits reg store fuel self w = Some (store v self, w').
Proof.
  intros Ht Hav Hn Hf. rewrite read_vector_split, Ht.
  rewrite (wait_block_ready int_bits 0 _ n fuel); try assumption.
  - eexists. eexists. reflexivity.
  - intros k Hk. split; [apply Hav; assumption | lia].
Qed.

Lemma read_vector_no_timeout_exit (reg : Z) (store : vector Z -> LSM6 -> LSM6)
      (fuel : nat) (self self' : LSM6) (w w' : World E) :
  io_timeout self = 0 ->
  read_vector int_bits reg store fuel self w = Some (self', w') ->
  (exists v, self' = store v self) /\
  exists n, (n < fuel)%nat /\
    6 <= available_at 0 n (poll_start reg self w) /\
    forall k, (k < n)%nat -> available_at 0 k (poll_start reg self w) < 6.
Proof.
  intros Ht Hrun. rewrite read_vector_split, Ht in Hrun.
  destruct (wait_block int_bits fuel 0 (start_time reg self w)
              (poll_start reg self w)) as [[[|] w1] |] eqn:Hwait;
    inversion Hrun; subst; clear Hrun;
    apply wait_block_exit in Hwait; destruct Hwait as (n & Hn & Hp & Hend).
  - destruct Hend as [Hav _]. split; [eexists; reflexivity |].
    exists n. split; [assumption |]. split; [assumption |].
    intros k Hk. apply Hp. assumption.
  - destruct Hend as [Hpos _]. lia.
Qed.

Lemma read_vector_changes (reg : Z) (store : vector Z -> LSM6 -> LSM6)
      (fuel : nat) (self self' : LSM6) (w w' : World E) :
  read_vector int_bits reg store fuel self w = Some (self', w') ->
  self' = set_did_timeout true self \/ exists v, self' = store v self.
Proof.
  intros Hrun. rewrite read_vector_split in Hrun.
  destruct (wait_block int_bits fuel (io_timeout self) (start_time reg self w)
              (poll_start reg self w)) as [[[|] w1] |];
    inversion Hrun; subst; [right; eexists; reflexivity | left; reflexivity].
Qed.

End Reading.

(** ** Probing *)

Section Probing.

Context {E : Type} {P : Platform E} {R : RegAddr}.

Lemma testReg_begins (addr reg : Z) (w : World E) :
  begins (calls (snd (testReg addr reg w))) = begins (calls w) ++ [addr].
Proof.
  unfold testReg, bind, ret, tw_beginTransmission, tw_write, tw_requestFrom,
    tw_endTransmission, tw_available, tw_read, log. simpl.
  destruct (endTransmission _) as [s e1]. simpl.
  destruct (s =? 0); simpl.
  - destruct (available _) as [n e2]. simpl.
    destruct (n =? 0); simpl.
    + rewrite !begins_app. simpl. rewrite !app_nil_r. reflexivity.
    + destruct (read _) as [b e3]. simpl.
      rewrite !begins_app. simpl. rewrite !app_nil_r. reflexivity.
  - rewrite !begins_app. simpl. rewrite !app_nil_r. reflexivity.
Qed.

Lemma init_refines (device : deviceType) (sa0 : sa0State) (self : LSM6)
      (w : World E) :
  unresolved device sa0 = true ->
  init device sa0 self w = init_by_candidates sa0 self w.
Proof.
  intros Hauto. unfold init. rewrite Hauto.
  unfold init_by_candidates, detect, bind, ret.
  destruct device, sa0; try discriminate Hauto; simpl;
    unfold probe, identifies, bind, ret; simpl.
  - destruct (testReg DS33_SA0_HIGH_ADDRESS WHO_AM_I w) as [r1 w1].
    destruct (r1 =? DS33_WHO_ID); [reflexivity |].
    destruct (testReg DS33_SA0_LOW_ADDRESS WHO_AM_I w1) as [r2 w2].
    destruct (r2 =? DS33_WHO_ID); reflexivity.
  - destruct (testReg DS33_SA0_LOW_ADDRESS WHO_AM_I w) as [r2 w2].
    destruct (r2 =? DS33_WHO_ID); reflexivity.
  - destruct (testReg DS33_SA0_HIGH_ADDRESS WHO_AM_I w) as [r1 w1].
    destruct (r1 =? DS33_WHO_ID); reflexivity.
  - destruct (testReg DS33_SA0_HIGH_ADDRESS WHO_AM_I w) as [r1 w1].
    destruct (r1 =? DS33_WHO_ID); [reflexivity |].
    destruct (testReg DS33_SA0_LOW_ADDRESS WHO_AM_I w1) as [r2 w2].
    destruct (r2 =? DS33_WHO_ID); reflexivity.
Qed.

(** The transmissions of a search are those to an initial segment of
    the candidates, in order; the accepted candidate is the last one
    tried, and a search that accepts nobody has tried them all. *)
Lemma first_accepted_order (cs : list sa0State) (w : World E) :
  exists tried rest,
    cs = tried ++ rest /\
    begins (calls (snd (first_accepted cs w)))
    = begins (calls w) ++ map candidate_address tried /\
    match fst (first_accepted cs w) with
    | Some c => exists before, tried = before ++ [c]
    | None => rest = []
    end.
Proof.
  revert w. induction cs as [| c cs IH]; intros w.
  - exists [], []. simpl. rewrite app_nil_r. auto.
  - simpl. unfold bind, identifies, bind, ret.
    pose proof (testReg_begins (candidate_address c) WHO_AM_I w) as Hb.
    destruct (testReg (candidate_address c) WHO_AM_I w) as [r w1]. simpl in Hb.
    destruct (r =? DS33_WHO_ID).
    + exists [c], cs. simpl. split; [reflexivity |]. split; [assumption |].
      exists []. reflexivity.
    + destruct (IH w1) as (tried & rest & Hcs & Hbeg & Hres).
      exists (c :: tried), rest. split; [simpl; congruence |]. split.
      * rewrite Hbeg, Hb. simpl. rewrite <- app_assoc. reflexivity.
      * destruct (fst (first_accepted cs w1)); [| assumption].
        destruct Hres as [before ->]. exists (c :: before). reflexivity.
Qed.

End Probing.

(** ** The driver's contract *)


Lemma to_uint8_byte (v : Z) : is_uint8 v -> to_uint8 v = v.
Proof. unfold is_uint8, to_uint8. intros Hv. apply Z.mod_small. assumption. Qed.

Section Contract.

Context {E : Type} {P : Platform E} {R : RegAddr}.





(** X17. With a timeout configured, a read whose poll loop sees its own
    timeout test succeed in some iteration [n], no iteration up to [n]
    having seen six bytes, returns (given more than [n] iterations) with
    the timeout flag set and nothing else changed in the driver, in
    particular not the result vector, and without having taken a byte
    from the bus.  Conversely a call that turned the flag on has done
    exactly that. *)
Theorem read_timeout_keeps_vector
        (int_bits : Z) (self : LSM6) (w : World E) :
  0 < io_timeout self ->
  (forall n fuel : nat,
      gives_up int_bits OUTX_L_XL self w n -> (n < fuel)%nat ->
      exists self' w',
        readAcc int_bits fuel self w = Some (self', w') /\
        did_timeout self' = true /\
        a self' = a self /\
        self' = set_did_timeout true self /\
        reads (calls w') = reads (calls w) /\
        w' = snd (now_millis
                    (snd (tw_available
                            (poll_world (io_timeout self) n
                                        (poll_start OUTX_L_XL self w)))))) /\
  (forall n fuel : nat,
      gives_up int_bits OUTX_L_G self w n -> (n < fuel)%nat ->
      exists self' w',
        readGyro int_bits fuel self w = Some (self', w') /\
        did_timeout self' = true /\
        g self' = g self /\
        self' = set_did_timeout true self /\
        reads (calls w') = reads (calls w) /\
        w' = snd (now_millis
                    (snd (tw_available
                            (poll_world (io_timeout self) n
                                        (poll_start OUTX_L_G self w)))))) /\
  (forall (fuel : nat) (self' : LSM6) (w' : World E),
      did_timeout self = false -> did_timeout self' = true ->
      readAcc int_bits fuel self w = Some (self', w') ->
      a self' = a self /\ reads (calls w') = reads (calls w)) /\
  (forall (fuel : nat) (self' : LSM6) (w' : World E),
      did_timeout self = false -> did_timeout self' = true ->
      readGyro int_bits fuel self w = Some (self', w') ->
      g self' = g self /\ reads (calls w') = reads (calls w)).
Proof.
  intros Ht. split; [| split; [| split]].
  - intros n fuel Hgive Hf.
    destruct (read_vector_gives_up int_bits OUTX_L_XL set_a self w n fuel
                Ht Hgive Hf) as (w' & Hrun & Hreads & Hw').
    exists (set_did_timeout true self), w'. repeat split; assumption.
  - intros n fuel Hgive Hf.
    destruct (read_vector_gives_up int_bits OUTX_L_G set_g self w n fuel
                Ht Hgive Hf) as (w' & Hrun & Hreads & Hw').
    exists (set_did_timeout true self), w'. repeat split; assumption.
  - intros fuel self' w' Hold Hnew Hrun.
    destruct (read_vector_flag_set int_bits OUTX_L_XL set_a fuel self self' w w')
      as [-> Hreads]; auto.
  - intros fuel self' w' Hold Hnew Hrun.
    destruct (read_vector_flag_set int_bits OUTX_L_G set_g fuel self self' w w')
      as [-> Hreads]; auto.
Qed.

(** The elapsed time of the poll loop on a target whose [int] has 16
    bits: the difference modulo 2^16, whatever the clock did. *)
Lemma elapsed_on_16_bit_int (s c : Z) :
  is_uint16 s -> is_uint16 c -> elapsed 16 c s = (c - s) mod 2 ^ 16.
Proof.
  unfold is_uint16, elapsed, sub_u16, to_uint16. intros Hs Hc. simpl (16 <=? 16).
  cbv iota. rewrite (Z.mod_small c) by assumption. reflexivity.
Qed.

(** On a target with a wider [int] the operands are promoted and the
    difference is the signed one: once the 16-bit clock value has wrapped
    below [millis_start] it is negative and no timeout expires. *)
Lemma elapsed_on_wider_int (int_bits s c : Z) :
  16 < int_bits -> is_uint16 s -> is_uint16 c -> elapsed int_bits c s = c - s.
Proof.
  unfold is_uint16, elapsed, sub_u16, to_uint16. intros Hw Hs Hc.
  destruct (Z.leb_spec int_bits 16); [lia |].
  rewrite (Z.mod_small c) by assumption. reflexivity.
Qed.

Lemma wrapped_clock_never_expires (int_bits timeout s c : Z) :
  16 < int_bits -> is_uint16 s -> is_uint16 c -> 0 <= timeout -> c < s ->
  expired int_bits timeout c s = false.
Proof.
  intros Hw Hs Hc Ht Hlt. unfold expired.
  rewrite elapsed_on_wider_int by assumption. apply Z.ltb_ge. lia.
Qed.

(** C3. The elapsed time [(uint16_t)millis() - millis_start] of the poll
    loop, evaluated where [int] has 32 bits, with [millis_start = 65534]
    and [millis()] returning 65538, 4 ms later and past the wrap of the
    16-bit counter: the cast gives 2, the promoted difference is -65532
    where the wrap-around difference is 4, and a timeout of 3 ms is not
    seen as expired.  Where [int] has 16 bits the same timeout is. *)
Theorem elapsed_after_wrap_on_32_bit_int :
  to_uint16 65538 = 2 /\
  elapsed 32 65538 65534 = -65532 /\
  (2 - 65534) mod 2 ^ 16 = 4 /\
  expired 32 3 65538 65534 = false /\
  expired 16 3 65538 65534 = true.
Proof. repeat split. Qed.

(** C4. With both the device and the SA0 state given, [init] makes no
    call on the bus at all, returns [true], and stores the device and the
    address of that SA0 state: 0x6b for high, 0x6a for low.  A detection
    that ends with the same device and SA0 state stores the same
    address. *)
Theorem init_pinned_skips_probing
        (device : deviceType) (sa0 : sa0State) (self : LSM6) (w : World E) :
  device <> device_auto -> sa0 <> sa0_auto ->
  exists self',
    init device sa0 self w = (true, self', w) /\
    _device self' = device /\
    address self' = candidate_address sa0 /\
    (sa0 = sa0_high -> address self' = DS33_SA0_HIGH_ADDRESS) /\
    (sa0 = sa0_low -> address self' = DS33_SA0_LOW_ADDRESS) /\
    (a self', g self', last_status self', io_timeout self', did_timeout self')
    = (a self, g self, last_status self, io_timeout self, did_timeout self) /\
    (forall (device0 : deviceType) (sa00 : sa0State) (self0 : LSM6)
            (w0 : World E),
        unresolved device0 sa00 = true ->
        fst (detect device0 sa00 w0) = (device, sa0) ->
        fst (fst (init device0 sa00 self0 w0)) = true /\
        address (snd (fst (init device0 sa00 self0 w0))) = address self').
Proof.
  intros Hd Hs. exists (store_identity device sa0 self).
  assert (Hpinned : unresolved device sa0 = false)
    by (destruct device, sa0; congruence || reflexivity).
  assert (Haddr : address (store_identity device sa0 self) = candidate_address sa0)
    by (destruct device, sa0; congruence || reflexivity).
  split; [unfold init; rewrite Hpinned; reflexivity |].
  split; [reflexivity |].
  split; [assumption |].
  split; [intros ->; assumption |].
  split; [intros ->; assumption |].
  split; [reflexivity |].
  intros device0 sa00 self0 w0 Hauto Hfound.
  unfold init. rewrite Hauto. unfold bind.
  destruct (detect device0 sa00 w0) as [[d s] w1].
  simpl in Hfound. inversion Hfound; subst d s. rewrite Hpinned. simpl.
  split; [reflexivity |].
  destruct device, sa0; congruence || reflexivity.
Qed.

(** C5. When the device or the SA0 state is left to be detected, [init]
    is the search over the candidates high, low (less the one ruled out
    by a given SA0 state) that accepts the first candidate whose identity
    register answers the chip's identity: the transmissions go to an
    initial segment of the candidates in that order, a success stores the
    address of the last candidate tried and the DS33 as device, and
    [init] returns [false] exactly when the device or the SA0 state is
    still undetermined after the detection, every candidate having been
    tried. *)
Theorem init_probes_high_then_low
        (device : deviceType) (sa0 : sa0State) (self : LSM6) (w : World E) :
  unresolved device sa0 = true ->
  init device sa0 self w = init_by_candidates sa0 self w /\
  candidates sa0
  = match sa0 with
    | sa0_auto => [sa0_high; sa0_low]
    | pinned => [pinned]
    end /\
  fst (fst (init device sa0 self w))
  = negb (let (d, s) := fst (detect device sa0 w) in unresolved d s) /\
  exists tried rest,
    candidates sa0 = tried ++ rest /\
    begins (calls (snd (init device sa0 self w)))
    = begins (calls w) ++ map candidate_address tried /\
    (fst (fst (init device sa0 self w)) = true ->
     exists before c,
       tried = before ++ [c] /\
       address (snd (fst (init device sa0 self w))) = candidate_address c /\
       _device (snd (fst (init device sa0 self w))) = device_DS33) /\
    (fst (fst (init device sa0 self w)) = false ->
     rest = [] /\ snd (fst (init device sa0 self w)) = self).
Proof.
  intros Hauto. split; [apply init_refines; assumption |].
  split; [destruct sa0; reflexivity |]. split.
  - unfold init. rewrite Hauto. unfold bind.
    destruct (detect device sa0 w) as [[d s] w1]. simpl.
    destruct (unresolved d s); reflexivity.
  - rewrite init_refines by assumption. unfold init_by_candidates, bind.
    destruct (first_accepted_order (candidates sa0) w)
      as (tried & rest & Hcs & Hbeg & Hres).
    exists tried, rest. split; [assumption |].
    destruct (first_accepted (candidates sa0) w) as [[c |] w1]; simpl in *.
    + split; [assumption |]. split; [| discriminate].
      intros _. destruct Hres as [before ->]. exists before, c. auto.
    + split; [assumption |]. split; [discriminate | auto].
Qed.

(** C6. [timeoutOccurred] returns the flag and clears it, touching
    nothing else; called again at once it returns [false], and so it does
    after anything that left the flag as the first call put it. *)
Theorem timeoutOccurred_read_and_reset (self : LSM6) :
  fst (timeoutOccurred self) = did_timeout self /\
  snd (timeoutOccurred self) = set_did_timeout false self /\
  did_timeout (snd (timeoutOccurred self)) = false /\
  fst (timeoutOccurred (snd (timeoutOccurred self))) = false /\
  (forall later : LSM6,
      did_timeout later = did_timeout (snd (timeoutOccurred self)) ->
      fst (timeoutOccurred later) = false).
Proof.
  repeat split. intros later Hsame. simpl in *. assumption.
Qed.

(** C7. With the timeout at 0 a read never gives up: as long as fewer
    than six bytes are available it is still polling, however many
    iterations it is given; it returns once six bytes are available, with
    the vector assigned; and whenever it returns, the timeout flag is as
    it was and six bytes had become available. *)
Theorem read_without_timeout_waits
        (int_bits : Z) (self : LSM6) (w : World E) :
  io_timeout self = 0 ->
  (forall fuel : nat,
      (forall k, (k < fuel)%nat ->
                 available_at 0 k (poll_start OUTX_L_XL self w) < 6) ->
      readAcc int_bits fuel self w = None) /\
  (forall n fuel : nat,
      (forall k, (k < n)%nat ->
                 available_at 0 k (poll_start OUTX_L_XL self w) < 6) ->
      6 <= available_at 0 n (poll_start OUTX_L_XL self w) ->
      (n < fuel)%nat ->
      exists v w', readAcc int_bits fuel self w = Some (set_a v self, w')) /\
  (forall (fuel : nat) (self' : LSM6) (w' : World E),
      readAcc int_bits fuel self w = Some (self', w') ->
      did_timeout self' = did_timeout self /\
      exists n, (n < fuel)%nat /\
        6 <= available_at 0 n (poll_start OUTX_L_XL self w) /\
        forall k, (k < n)%nat ->
                  available_at 0 k (poll_start OUTX_L_XL self w) < 6) /\
  (forall fuel : nat,
      (forall k, (k < fuel)%nat ->
                 available_at 0 k (poll_start OUTX_L_G self w) < 6) ->
      readGyro int_bits fuel self w = None) /\
  (forall n fuel : nat,
      (forall k, (k < n)%nat ->
                 available_at 0 k (poll_start OUTX_L_G self w) < 6) ->
      6 <= available_at 0 n (poll_start OUTX_L_G self w) ->
      (n < fuel)%nat ->
      exists v w', readGyro int_bits fuel self w = Some (set_g v self, w')) /\
  (forall (fuel : nat) (self' : LSM6) (w' : World E),
      readGyro int_bits fuel self w = Some (self', w') ->
      did_timeout self' = did_timeout self /\
      exists n, (n < fuel)%nat /\
        6 <= available_at 0 n (poll_start OUTX_L_G self w) /\
        forall k, (k < n)%nat ->
                  available_at 0 k (poll_start OUTX_L_G self w) < 6).
Proof.
  intros Ht.
  split; [| split; [| split; [| split; [| split]]]].
  - intros fuel Hav.
    apply (read_vector_no_timeout_waits int_bits OUTX_L_XL set_a); assumption.
  - intros n fuel Hav Hn Hf.
    apply (read_vector_no_timeout_ready int_bits OUTX_L_XL set_a self w n);
      assumption.
  - intros fuel self' w' Hrun.
    destruct (read_vector_no_timeout_exit int_bits OUTX_L_XL set_a fuel
                self self' w w' Ht Hrun) as [[v ->] Hn].
    split; [reflexivity | assumption].
  - intros fuel Hav.
    apply (read_vector_no_timeout_waits int_bits OUTX_L_G set_g); assumption.
  - intros n fuel Hav Hn Hf.
    apply (read_vector_no_timeout_ready int_bits OUTX_L_G set_g self w n);
      assumption.
  - intros fuel self' w' Hrun.
    destruct (read_vector_no_timeout_exit int_bits OUTX_L_G set_g fuel
                self self' w w' Ht Hrun) as [[v ->] Hn].
    split; [reflexivity | assumption].
Qed.

(** C8. [testReg] in its three outcomes.  When the transmission of the
    register address ends with a nonzero status, the result is the error
    value -1, which is no byte, and the only calls made are the three of
    that transmission: no request, no read.  When the status is 0 and
    [available()] answers 0 after the request, the result is again the
    error value and no byte has been read.  Otherwise the result is what
    [read()] returned, converted to [int16_t]: the byte itself. *)
Theorem testReg_outcomes (addr reg : Z) (w : World E) :
  let w1 := snd (tw_write (to_uint8 reg) (snd (tw_beginTransmission addr w))) in
  let status := fst (tw_endTransmission w1) in
  let w2 := snd (tw_endTransmission w1) in
  let w3 := snd (tw_requestFrom addr 1 w2) in
  let n := fst (tw_available w3) in
  let w4 := snd (tw_available w3) in
  let b := fst (tw_read w4) in
  let w5 := snd (tw_read w4) in
  (TEST_REG_ERROR = -1 /\ ~ is_uint8 TEST_REG_ERROR) /\
  (status <> 0 ->
   testReg addr reg w = (TEST_REG_ERROR, w2) /\
   calls w2 = calls w ++ [BeginTransmission addr; Write (to_uint8 reg);
                          EndTransmission status] /\
   requests (calls w2) = requests (calls w) /\
   reads (calls w2) = reads (calls w)) /\
  (status = 0 -> n = 0 ->
   testReg addr reg w = (TEST_REG_ERROR, w4) /\
   requests (calls w4) = requests (calls w) ++ [(addr, 1)] /\
   reads (calls w4) = reads (calls w)) /\
  (status = 0 -> n <> 0 ->
   testReg addr reg w = (to_int16 b, w5) /\
   reads (calls w5) = reads (calls w) ++ [b] /\
   (is_uint8 b -> to_int16 b = b)).
Proof.
  cbv zeta. unfold testReg, bind, ret.
  unfold tw_beginTransmission, tw_write, tw_requestFrom, tw_endTransmission,
    tw_available, tw_read, log. simpl.
  destruct (endTransmission _) as [s e1]. simpl.
  destruct (available _) as [n e2] eqn:Hav. simpl.
  destruct (read _) as [b e3] eqn:Hrd. simpl.
  split; [split; [reflexivity | unfold is_uint8, TEST_REG_ERROR; lia] |].
  split; [| split].
  - intros Hs. apply Z.eqb_neq in Hs. rewrite Hs. simpl.
    rewrite <- !app_assoc. simpl.
    rewrite requests_app, reads_app. simpl. rewrite !app_nil_r. repeat split.
  - intros -> ->. simpl. rewrite Hav. simpl.
    rewrite <- !app_assoc. simpl.
    rewrite requests_app, reads_app. simpl. rewrite !app_nil_r. repeat split.
  - intros -> Hn. apply Z.eqb_neq in Hn. simpl. rewrite Hav. simpl.
    rewrite Hn. simpl. rewrite Hrd. simpl.
    rewrite <- !app_assoc. simpl. rewrite reads_app. simpl.
    split; [reflexivity |]. split; [reflexivity |].
    unfold is_uint8. intros Hb. apply to_signed_small; [lia |].
    change (2 ^ (16 - 1)) with 32768. change (2 ^ 8) with 256 in Hb. lia.
Qed.

(** C9. A call of [readAcc] that returns has changed nothing but [a] and
    the timeout flag: [g], the bus address, the device, the configured
    timeout and the last status are as before.  A call of [readGyro] that
    returns leaves [a] and those fields as before. *)
Theorem reads_frame
        (int_bits : Z) (fuel : nat) (self self' : LSM6) (w w' : World E) :
  (readAcc int_bits fuel self w = Some (self', w') ->
   g self' = g self /\ address self' = address self /\
   _device self' = _device self /\ io_timeout self' = io_timeout self /\
   last_status self' = last_status self) /\
  (readGyro int_bits fuel self w = Some (self', w') ->
   a self' = a self /\ address self' = address self /\
   _device self' = _device self /\ io_timeout self' = io_timeout self /\
   last_status self' = last_status self).
Proof.
  split; intros Hrun.
  - destruct (read_vector_changes int_bits OUTX_L_XL set_a fuel self self' w w' Hrun)
      as [-> | [v ->]]; repeat split.
  - destruct (read_vector_changes int_bits OUTX_L_G set_g fuel self self' w w' Hrun)
      as [-> | [v ->]]; repeat split.
Qed.

(** C10. A call of [init] that returns [false] leaves the driver object
    as it was, field for field. *)
Theorem init_failure_keeps_state
        (device : deviceType) (sa0 : sa0State) (self self' : LSM6)
        (w w' : World E) :
  init device sa0 self w = (false, self', w') ->
  self' = self /\
  (_device self', address self', io_timeout self', did_timeout self',
   last_status self', a self', g self')
  = (_device self, address self, io_timeout self, did_timeout self,
     last_status self, a self, g self).
Proof.
  unfold init, bind, ret. intros Hrun.
  assert (Hsame : self' = self).
  { destruct (unresolved device sa0); [| discriminate].
    destruct (detect device sa0 w) as [[d s] w1].
    destruct (unresolved d s); inversion Hrun; reflexivity. }
  subst self'. split; reflexivity.
Qed.

End Contract.

(** * The contract on the simulated bus *)

Module Runs.

Import Sim.

(** A device at the low address only, as in the detection test of the
    specification. *)
Example detection_finds_low_device :
  let r := init (P := platform) (R := ds33_map) device_auto sa0_auto fresh
                (world (bus only_low 0 0 1)) in
  fst (fst r) = true /\
  _device (snd (fst r)) = device_DS33 /\
  address (snd (fst r)) = DS33_SA0_LOW_ADDRESS /\
  begins (calls (snd r)) = [DS33_SA0_HIGH_ADDRESS; DS33_SA0_LOW_ADDRESS].
Proof. vm_compute. repeat split. Qed.

Example detection_without_device_fails :
  let r := init (P := platform) (R := ds33_map) device_auto sa0_auto fresh
                (world (bus nobody 0 0 1)) in
  fst (fst r) = false /\ snd (fst r) = fresh.
Proof. vm_compute. repeat split. Qed.

(** A bus that never delivers, a timeout of 3 ms and a clock that wraps
    during the wait.  With a 16-bit [int] the read gives up in the fourth
    iteration; with a 32-bit [int] it is still polling after 500
    iterations. *)
Example read_gives_up_across_wrap :
  match readAcc (P := platform) (R := ds33_map) 16 10 (running 3)
                (world (bus nobody 0 65534 1)) with
  | Some (self', w') =>
      did_timeout self' = true /\ length (calls w') = 13%nat
  | None => False
  end.
Proof. vm_compute. repeat split. Qed.

Example read_hangs_across_wrap_on_32_bit_int :
  readAcc (P := platform) (R := ds33_map) 32 500 (running 3)
          (world (bus nobody 0 65534 1)) = None.
Proof. vm_compute. reflexivity. Qed.

End Runs.

(** ** Instances of the contract *)


Lemma read_timeout_keeps_vector_witness :
  let self := Sim.running 3 in
  let w := Sim.world (Sim.bus Sim.nobody 0 65534 1) in
  0 < io_timeout self /\
  gives_up (P := Sim.platform) 16 (OUTX_L_XL (RegAddr := Sim.ds33_map)) self w 3 /\
  exists self' w',
    readAcc (P := Sim.platform) (R := Sim.ds33_map) 16 10 self w
    = Some (self', w') /\
    did_timeout self' = true /\
    a self' = a self /\
    self' = set_did_timeout true self /\
    reads (calls w') = reads (calls w).
Proof.
  cbv zeta.
  assert (Ht : 0 < io_timeout (Sim.running 3)) by (simpl; lia).
  assert (Hgive : gives_up (P := Sim.platform) 16
                           (OUTX_L_XL (RegAddr := Sim.ds33_map))
                           (Sim.running 3)
                           (Sim.world (Sim.bus Sim.nobody 0 65534 1)) 3).
  { unfold gives_up. cbv zeta. split; [| split].
    - intros k Hk.
      destruct k as [| [| [| [| k]]]]; [vm_compute; reflexivity .. | lia].
    - intros k Hk.
      destruct k as [| [| [| k]]]; [vm_compute; reflexivity .. | lia].
    - vm_compute. reflexivity. }
  split; [exact Ht |]. split; [exact Hgive |].
  destruct (proj1 (@read_timeout_keeps_vector Sim.Bus Sim.platform Sim.ds33_map
                     16 (Sim.running 3)
                     (Sim.world (Sim.bus Sim.nobody 0 65534 1)) Ht)
                  3%nat 10%nat Hgive ltac:(lia))
    as (self' & w' & Hrun & Hflag & Ha & Hself & Hreads & _).
  exists self', w'. repeat split; assumption.
Defined.

Lemma init_pinned_skips_probing_witness :
  let w := Sim.world (Sim.bus Sim.nobody 0 0 1) in
  device_DS33 <> device_auto /\ sa0_high <> sa0_auto /\
  exists self',
    init (P := Sim.platform) (R := Sim.ds33_map) device_DS33 sa0_high Sim.fresh w
    = (true, self', w) /\
    address self' = DS33_SA0_HIGH_ADDRESS.
Proof.
  cbv zeta.
  assert (Hd : device_DS33 <> device_auto) by discriminate.
  assert (Hs : sa0_high <> sa0_auto) by discriminate.
  split; [exact Hd |]. split; [exact Hs |].
  destruct (@init_pinned_skips_probing Sim.Bus Sim.platform Sim.ds33_map
              device_DS33 sa0_high Sim.fresh
              (Sim.world (Sim.bus Sim.nobody 0 0 1)) Hd Hs)
    as (self' & Hrun & _ & Haddr & _).
  exists self'. split; [exact Hrun | exact Haddr].
Defined.

Lemma init_probes_high_then_low_witness :
  let w := Sim.world (Sim.bus Sim.only_low 0 0 1) in
  unresolved device_auto sa0_auto = true /\
  init (P := Sim.platform) (R := Sim.ds33_map) device_auto sa0_auto Sim.fresh w
  = init_by_candidates (P := Sim.platform) (R := Sim.ds33_map) sa0_auto Sim.fresh w.
Proof.
  cbv zeta. split; [reflexivity |].
  apply (@init_probes_high_then_low Sim.Bus Sim.platform Sim.ds33_map
           device_auto sa0_auto Sim.fresh
           (Sim.world (Sim.bus Sim.only_low 0 0 1)) eq_refl).
Defined.

Lemma timeoutOccurred_read_and_reset_witness :
  let self := set_did_timeout true (Sim.running 3) in
  fst (timeoutOccurred self) = true /\
  fst (timeoutOccurred (snd (timeoutOccurred self))) = false.
Proof.
  cbv zeta.
  destruct (timeoutOccurred_read_and_reset (set_did_timeout true (Sim.running 3)))
    as (Hfirst & _ & _ & Hsecond & _).
  split; [exact Hfirst | exact Hsecond].
Defined.

Lemma read_without_timeout_waits_witness :
  let self := Sim.running 0 in
  let w := Sim.world (Sim.bus Sim.nobody 0 0 1) in
  io_timeout self = 0 /\
  (forall k, (k < 4)%nat ->
             available_at (P := Sim.platform) 0 k
               (poll_start (P := Sim.platform)
                           (OUTX_L_XL (RegAddr := Sim.ds33_map)) self w) < 6) /\
  readAcc (P := Sim.platform) (R := Sim.ds33_map) 16 4 self w = None.
Proof.
  cbv zeta.
  assert (Hav : forall k, (k < 4)%nat ->
             available_at (P := Sim.platform) 0 k
               (poll_start (P := Sim.platform)
                           (OUTX_L_XL (RegAddr := Sim.ds33_map))
                           (Sim.running 0)
                           (Sim.world (Sim.bus Sim.nobody 0 0 1))) < 6).
  { intros k Hk.
    destruct k as [| [| [| [| k]]]]; [vm_compute; reflexivity .. | lia]. }
  split; [reflexivity |]. split; [exact Hav |].
  apply (proj1 (@read_without_timeout_waits Sim.Bus Sim.platform Sim.ds33_map
                  16 (Sim.running 0)
                  (Sim.world (Sim.bus Sim.nobody 0 0 1)) eq_refl) 4%nat Hav).
Defined.

Lemma testReg_outcomes_witness :
  let w := Sim.world (Sim.bus Sim.only_low 0 0 1) in
  fst (testReg (P := Sim.platform) DS33_SA0_HIGH_ADDRESS 0x0f w) = TEST_REG_ERROR /\
  fst (testReg (P := Sim.platform) DS33_SA0_LOW_ADDRESS 0x0f w) = DS33_WHO_ID.
Proof.
  cbv zeta. split.
  - destruct (@testReg_outcomes Sim.Bus Sim.platform DS33_SA0_HIGH_ADDRESS 0x0f
                (Sim.world (Sim.bus Sim.only_low 0 0 1)))
      as (_ & Hfail & _).
    destruct Hfail as [Hrun _]; [vm_compute; discriminate |].
    rewrite Hrun. reflexivity.
  - destruct (@testReg_outcomes Sim.Bus Sim.platform DS33_SA0_LOW_ADDRESS 0x0f
                (Sim.world (Sim.bus Sim.only_low 0 0 1)))
      as (_ & _ & _ & Hbyte).
    destruct Hbyte as [Hrun _]; [reflexivity | vm_compute; discriminate |].
    rewrite Hrun. reflexivity.
Defined.

Lemma reads_frame_witness :
  let self := Sim.running 0 in
  let w := Sim.world (Sim.bus Sim.only_low 3 0 1) in
  (exists self' w',
      readAcc (P := Sim.platform) (R := Sim.ds33_map) 16 10 self w
      = Some (self', w') /\
      a self' = mkVector 4660 32767 (-100) /\ g self' = g self) /\
  (exists self' w',
      readGyro (P := Sim.platform) (R := Sim.ds33_map) 16 10 self w
      = Some (self', w') /\
      g self' = mkVector 16 (-2) (-32768) /\ a self' = a self).
Proof.
  cbv zeta. split.
  - destruct (readAcc (P := Sim.platform) (R := Sim.ds33_map) 16 10
                (Sim.running 0) (Sim.world (Sim.bus Sim.only_low 3 0 1)))
      as [[self' w'] |] eqn:Hrun.
    + exists self', w'. split; [reflexivity |]. split.
      * vm_compute in Hrun. inversion Hrun. reflexivity.
      * apply (proj1 (@reads_frame Sim.Bus Sim.platform Sim.ds33_map 16 10
                        (Sim.running 0) self'
                        (Sim.world (Sim.bus Sim.only_low 3 0 1)) w') Hrun).
    + vm_compute in Hrun. discriminate Hrun.
  - destruct (readGyro (P := Sim.platform) (R := Sim.ds33_map) 16 10
                (Sim.running 0) (Sim.world (Sim.bus Sim.only_low 3 0 1)))
      as [[self' w'] |] eqn:Hrun.
    + exists self', w'. split; [reflexivity |]. split.
      * vm_compute in Hrun. inversion Hrun. reflexivity.
      * apply (proj2 (@reads_frame Sim.Bus Sim.platform Sim.ds33_map 16 10
                        (Sim.running 0) self'
                        (Sim.world (Sim.bus Sim.only_low 3 0 1)) w') Hrun).
    + vm_compute in Hrun. discriminate Hrun.
Defined.

Lemma init_failure_keeps_state_witness :
  let w := Sim.world (Sim.bus Sim.nobody 0 0 1) in
  exists self' w',
    init (P := Sim.platform) (R := Sim.ds33_map) device_auto sa0_auto Sim.fresh w
    = (false, self', w') /\
    self' = Sim.fresh.
Proof.
  cbv zeta.
  destruct (init (P := Sim.platform) (R := Sim.ds33_map) device_auto sa0_auto
              Sim.fresh (Sim.world (Sim.bus Sim.nobody 0 0 1)))
    as [[r self'] w'] eqn:Hrun.
  assert (Hr : r = false).
  { vm_compute in Hrun. inversion Hrun. reflexivity. }
  subst r. exists self', w'. split; [reflexivity |].
  apply (@init_failure_keeps_state Sim.Bus Sim.platform Sim.ds33_map
           device_auto sa0_auto Sim.fresh self'
           (Sim.world (Sim.bus Sim.nobody 0 0 1)) w' Hrun).
Defined.

(** * Further properties of the driver *)

Lemma writes_app (l1 l2 : list Call) : writes (l1 ++ l2) = writes l1 ++ writes l2.
Proof.
  induction l1 as [| c l1 IH]; simpl; [reflexivity |].
  destruct c; simpl; rewrite ?IH; reflexivity.
Qed.

Lemma poll_calls_silent (l : list Call) :
  Forall poll_call l ->
  reads l = [] /\ requests l = [] /\ begins l = [] /\ writes l = [].
Proof.
  induction 1 as [| c l Hc _ IH]; [repeat split |].
  destruct c; simpl in Hc; try contradiction; simpl; exact IH.
Qed.

Lemma reads_map_Read (bs : list Z) : reads (map Read bs) = bs.
Proof. induction bs as [| b bs IH]; simpl; [| rewrite IH]; reflexivity. Qed.

Lemma Read_calls_silent (bs : list Z) :
  requests (map Read bs) = [] /\ begins (map Read bs) = [] /\
  writes (map Read bs) = [].
Proof. induction bs as [| b bs IH]; simpl; [repeat split | exact IH]. Qed.

Section Protocol.

Context {E : Type} {P : Platform E} {R : RegAddr}.
Variable int_bits : Z.

Lemma request_block_calls (reg : Z) (self : LSM6) (w : World E) :
  exists s t,
    calls (poll_start reg self w)
    = calls w ++ [BeginTransmission (address self); Write (to_uint8 reg);
                  EndTransmission s; RequestFrom (address self) 6; Millis t] /\
    start_time reg self w = to_uint16 t.
Proof.
  unfold poll_start, start_time, request_block, bind, ret.
  unfold tw_beginTransmission, tw_write, tw_requestFrom, tw_endTransmission,
    now_millis, log. simpl.
  destruct (endTransmission _) as [s e1]. simpl.
  destruct (millis _) as [t e2]. simpl.
  exists s, t. rewrite <- !app_assoc. simpl. split; reflexivity.
Qed.

Lemma poll_world_calls (timeout : Z) (k : nat) (w : World E) :
  exists l, calls (poll_world timeout k w) = calls w ++ l /\ Forall poll_call l.
Proof.
  revert w. induction k as [| k IH]; intros w.
  - exists []. rewrite app_nil_r. split; [reflexivity | constructor].
  - simpl. destruct (0 <? timeout).
    + destruct (IH (snd (now_millis (snd (tw_available w))))) as (l & Hl & Hp).
      exists (Available (fst (tw_available w))
              :: Millis (fst (now_millis (snd (tw_available w)))) :: l).
      rewrite Hl, millis_calls, available_calls, <- !app_assoc. simpl.
      split; [reflexivity |]. repeat constructor. assumption.
    + destruct (IH (snd (tw_available w))) as (l & Hl & Hp).
      exists (Available (fst (tw_available w)) :: l).
      rewrite Hl, available_calls, <- !app_assoc. simpl.
      split; [reflexivity |]. repeat constructor. assumption.
Qed.

Lemma wait_block_calls (fuel : nat) (timeout start : Z) (w w' : World E)
      (how : WaitExit) :
  wait_block int_bits fuel timeout start w = Some (how, w') ->
  exists l, calls w' = calls w ++ l /\ Forall poll_call l.
Proof.
  intros Hrun. apply wait_block_exit in Hrun.
  destruct Hrun as (n & _ & _ & Hend).
  destruct (poll_world_calls timeout n w) as (l & Hl & Hp).
  destruct how.
  - destruct Hend as [_ ->].
    exists (l ++ [Available (fst (tw_available (poll_world timeout n w)))]).
    rewrite available_calls, Hl, <- app_assoc. split; [reflexivity |].
    apply Forall_app. split; [assumption | repeat constructor].
  - destruct Hend as (_ & _ & _ & ->).
    exists (l ++ [Available (fst (tw_available (poll_world timeout n w)));
                  Millis (fst (now_millis
                                 (snd (tw_available (poll_world timeout n w)))))]).
    rewrite millis_calls, available_calls, Hl, <- !app_assoc. simpl.
    split; [reflexivity |].
    apply Forall_app. split; [assumption | repeat constructor].
Qed.

Lemma read_block_calls (w : World E) :
  exists bs,
    length bs = 6%nat /\
    calls (snd (read_block int_bits w)) = calls w ++ map Read bs.
Proof.
  unfold read_block, bind, ret.
  pose proof (read_calls w) as H1.
  destruct (tw_read w) as [xl w1]. pose proof (read_calls w1) as H2.
  destruct (tw_read w1) as [xh w2]. pose proof (read_calls w2) as H3.
  destruct (tw_read w2) as [yl w3]. pose proof (read_calls w3) as H4.
  destruct (tw_read w3) as [yh w4]. pose proof (read_calls w4) as H5.
  destruct (tw_read w4) as [zl w5]. pose proof (read_calls w5) as H6.
  destruct (tw_read w5) as [zh w6]. simpl in *.
  exists [xl; xh; yl; yh; zl; zh]. split; [reflexivity |].
  rewrite H6, H5, H4, H3, H2, H1, <- !app_assoc. reflexivity.
Qed.

Lemma read_vector_calls (reg : Z) (store : vector Z -> LSM6 -> LSM6)
      (fuel : nat) (self self' : LSM6) (w w' : World E) :
  read_vector int_bits reg store fuel self w = Some (self', w') ->
  exists s t polls bs,
    calls w'
    = calls w ++ [BeginTransmission (address self); Write (to_uint8 reg);
                  EndTransmission s; RequestFrom (address self) 6; Millis t]
              ++ polls ++ map Read bs /\
    Forall poll_call polls /\
    ((bs = [] /\ self' = set_did_timeout true self) \/
     (length bs = 6%nat /\ exists v, self' = store v self)).
Proof.
  intros Hrun. rewrite read_vector_split in Hrun.
  destruct (request_block_calls reg self w) as (s & t & Hstart & _).
  destruct (wait_block int_bits fuel (io_timeout self) (start_time reg self w)
              (poll_start reg self w)) as [[how w1] |] eqn:Hwait;
    [| discriminate].
  destruct (wait_block_calls _ _ _ _ _ _ Hwait) as (polls & Hpolls & Hp).
  exists s, t, polls.
  destruct how; inversion Hrun; subst; clear Hrun.
  - destruct (read_block_calls w1) as (bs & Hlen & Hbs).
    exists bs. rewrite Hbs, Hpolls, Hstart, <- !app_assoc.
    split; [reflexivity |]. split; [assumption |].
    right. split; [assumption | eexists; reflexivity].
  - exists []. rewrite Hpolls, Hstart, <- !app_assoc. simpl. rewrite app_nil_r.
    split; [reflexivity |]. split; [assumption |]. left. split; reflexivity.
Qed.

End Protocol.

Section Further.

Context {E : Type} {P : Platform E} {R : RegAddr}.

Lemma read_vector_projections (int_bits reg : Z)
      (store : vector Z -> LSM6 -> LSM6)
      (fuel : nat) (self self' : LSM6) (w w' : World E) :
  read_vector int_bits reg store fuel self w = Some (self', w') ->
  requests (calls w') = requests (calls w) ++ [(address self, 6)] /\
  writes (calls w') = writes (calls w) ++ [to_uint8 reg] /\
  begins (calls w') = begins (calls w) ++ [address self].
Proof.
  intros Hrun.
  destruct (read_vector_calls int_bits reg store fuel self self' w w' Hrun)
    as (s & t & polls & bs & Hcalls & Hp & _).
  destruct (poll_calls_silent polls Hp) as (_ & Hq & Hb & Hw).
  destruct (Read_calls_silent bs) as (Hq' & Hb' & Hw').
  rewrite Hcalls.
  rewrite !requests_app, !writes_app, !begins_app.
  rewrite Hq, Hb, Hw, Hq', Hb', Hw'. simpl. rewrite ?app_nil_r.
  repeat split.
Qed.

(** X1. The bus traffic of a read that returns: one transmission of the
    block's first register to the driver's address, one request for six
    bytes from that address, one reading of the clock, then only
    [available()] and [millis()] calls, and at the end either no [read()]
    at all (the call timed out) or exactly six (the vector was
    assigned). *)
Theorem read_transaction_shape
        (int_bits : Z) (fuel : nat) (self self' : LSM6) (w w' : World E) :
  (readAcc int_bits fuel self w = Some (self', w') ->
   exists s t polls bs,
     calls w'
     = calls w ++ [BeginTransmission (address self); Write (to_uint8 OUTX_L_XL);
                   EndTransmission s; RequestFrom (address self) 6; Millis t]
               ++ polls ++ map Read bs /\
     Forall poll_call polls /\
     ((bs = [] /\ self' = set_did_timeout true self) \/
      (length bs = 6%nat /\ exists v, self' = set_a v self))) /\
  (readGyro int_bits fuel self w = Some (self', w') ->
   exists s t polls bs,
     calls w'
     = calls w ++ [BeginTransmission (address self); Write (to_uint8 OUTX_L_G);
                   EndTransmission s; RequestFrom (address self) 6; Millis t]
               ++ polls ++ map Read bs /\
     Forall poll_call polls /\
     ((bs = [] /\ self' = set_did_timeout true self) \/
      (length bs = 6%nat /\ exists v, self' = set_g v self))).
Proof.
  split; intros Hrun.
  - exact (read_vector_calls int_bits OUTX_L_XL set_a fuel self self' w w' Hrun).
  - exact (read_vector_calls int_bits OUTX_L_G set_g fuel self self' w w' Hrun).
Qed.

(** X2. [read] always runs both reads: whenever it returns, two
    transmissions and two requests for six bytes have gone to the driver's
    address, the first for the accelerometer block and the second for the
    gyro block, whether or not the first read timed out; and the address,
    the device, the timeout and the last status are as before. *)
Theorem read_all_runs_both
        (int_bits : Z) (fuel : nat) (self self' : LSM6) (w w' : World E) :
  read_all int_bits fuel self w = Some (self', w') ->
  requests (calls w')
  = requests (calls w) ++ [(address self, 6); (address self, 6)] /\
  writes (calls w')
  = writes (calls w) ++ [to_uint8 OUTX_L_XL; to_uint8 OUTX_L_G] /\
  begins (calls w') = begins (calls w) ++ [address self; address self] /\
  (address self', _device self', io_timeout self', last_status self')
  = (address self, _device self, io_timeout self, last_status self).
Proof.
  unfold read_all. intros Hrun.
  destruct (readAcc int_bits fuel self w) as [[s1 w1] |] eqn:Hacc;
    [| discriminate].
  destruct (read_vector_projections int_bits OUTX_L_XL set_a fuel self s1 w w1 Hacc)
    as (Hq1 & Hw1 & Hb1).
  destruct (read_vector_projections int_bits OUTX_L_G set_g fuel s1 self' w1 w' Hrun)
    as (Hq2 & Hw2 & Hb2).
  assert (Hs1 : (address s1, _device s1, io_timeout s1, last_status s1)
                = (address self, _device self, io_timeout self, last_status self))
    by (destruct (read_vector_changes int_bits OUTX_L_XL set_a fuel self s1 w w1 Hacc)
         as [-> | [v ->]]; reflexivity).
  assert (Hs2 : (address self', _device self', io_timeout self', last_status self')
                = (address s1, _device s1, io_timeout s1, last_status s1))
    by (destruct (read_vector_changes int_bits OUTX_L_G set_g fuel s1 self' w1 w' Hrun)
         as [-> | [v ->]]; reflexivity).
  assert (Ha : address s1 = address self) by congruence.
  rewrite Hq2, Hw2, Hb2, Hq1, Hw1, Hb1, Ha, <- !app_assoc. simpl.
  repeat split. congruence.
Qed.

(** X3. The timeout flag is sticky: no read clears it.  If it is set
    before [readAcc], [readGyro] or [read], it is set when the call
    returns, whatever the bus did. *)
Theorem reads_never_clear_flag
        (int_bits : Z) (fuel : nat) (self self' : LSM6) (w w' : World E) :
  did_timeout self = true ->
  (readAcc int_bits fuel self w = Some (self', w') -> did_timeout self' = true) /\
  (readGyro int_bits fuel self w = Some (self', w') -> did_timeout self' = true) /\
  (read_all int_bits fuel self w = Some (self', w') -> did_timeout self' = true).
Proof.
  intros Hset.
  assert (Hacc : forall s s' v v',
             did_timeout s = true ->
             readAcc int_bits fuel s v = Some (s', v') -> did_timeout s' = true).
  { intros s s' v v' Hs Hrun.
    destruct (read_vector_changes int_bits OUTX_L_XL set_a fuel s s' v v' Hrun)
      as [-> | [u ->]]; [reflexivity | exact Hs]. }
  assert (Hgyro : forall s s' v v',
             did_timeout s = true ->
             readGyro int_bits fuel s v = Some (s', v') -> did_timeout s' = true).
  { intros s s' v v' Hs Hrun.
    destruct (read_vector_changes int_bits OUTX_L_G set_g fuel s s' v v' Hrun)
      as [-> | [u ->]]; [reflexivity | exact Hs]. }
  split; [apply Hacc; assumption |]. split; [apply Hgyro; assumption |].
  unfold read_all. intros Hrun.
  destruct (readAcc int_bits fuel self w) as [[s1 w1] |] eqn:H1; [| discriminate].
  apply (Hgyro s1 self' w1 w'); [| assumption].
  apply (Hacc self s1 w w1); [assumption | reflexivity || assumption].
Qed.

End Further.

Section Deadlines.

Context {E : Type} {P : Platform E} {R : RegAddr}.
Variable int_bits : Z.

Lemma read_block_combines (w : World E) :
  exists xl xh yl yh zl zh,
    fst (next_bytes 6 w) = [xl; xh; yl; yh; zl; zh] /\
    reads (calls (snd (next_bytes 6 w)))
    = reads (calls w) ++ [xl; xh; yl; yh; zl; zh] /\
    read_block int_bits w
    = (mkVector (combine int_bits (to_uint8 xh) (to_uint8 xl))
                (combine int_bits (to_uint8 yh) (to_uint8 yl))
                (combine int_bits (to_uint8 zh) (to_uint8 zl)),
       snd (next_bytes 6 w)).
Proof.
  unfold read_block, bind, ret. simpl.
  pose proof (read_calls w) as H1.
  destruct (tw_read w) as [xl w1]. pose proof (read_calls w1) as H2.
  destruct (tw_read w1) as [xh w2]. pose proof (read_calls w2) as H3.
  destruct (tw_read w2) as [yl w3]. pose proof (read_calls w3) as H4.
  destruct (tw_read w3) as [yh w4]. pose proof (read_calls w4) as H5.
  destruct (tw_read w4) as [zl w5]. pose proof (read_calls w5) as H6.
  destruct (tw_read w5) as [zh w6]. simpl in *.
  exists xl, xh, yl, yh, zl, zh. split; [reflexivity |].
  split; [| reflexivity].
  rewrite H6, H5, H4, H3, H2, H1. rewrite !reads_app. simpl.
  rewrite <- !app_assoc. reflexivity.
Qed.

Lemma read_vector_ready (reg : Z) (store : vector Z -> LSM6 -> LSM6)
      (self : LSM6) (w : World E) (n fuel : nat) :
  (forall k, (k < n)%nat ->
     pending int_bits (io_timeout self) (start_time reg self w)
             (poll_start reg self w) k) ->
  6 <= available_at (io_timeout self) n (poll_start reg self w) ->
  (n < fuel)%nat ->
  exists xl xh yl yh zl zh,
    fst (next_bytes 6 (snd (tw_available
                              (poll_world (io_timeout self) n
                                          (poll_start reg self w)))))
    = [xl; xh; yl; yh; zl; zh] /\
    read_vector int_bits reg store fuel self w
    = Some (store (mkVector (combine int_bits (to_uint8 xh) (to_uint8 xl))
                            (combine int_bits (to_uint8 yh) (to_uint8 yl))
                            (combine int_bits (to_uint8 zh) (to_uint8 zl)))
                  self,
            snd (next_bytes 6 (snd (tw_available
                                      (poll_world (io_timeout self) n
                                                  (poll_start reg self w)))))) /\
    reads (calls (snd (next_bytes 6 (snd (tw_available
                                            (poll_world (io_timeout self) n
                                               (poll_start reg self w)))))))
    = reads (calls w) ++ [xl; xh; yl; yh; zl; zh].
Proof.
  intros Hp Hav Hf. rewrite read_vector_split.
  rewrite (wait_block_ready int_bits _ _ n fuel) by assumption.
  destruct (read_block_combines
              (snd (tw_available
                      (poll_world (io_timeout self) n (poll_start reg self w)))))
    as (xl & xh & yl & yh & zl & zh & Hbytes & Hreads & Hblock).
  exists xl, xh, yl, yh, zl, zh. split; [exact Hbytes |]. split.
  - rewrite Hblock. reflexivity.
  - rewrite Hreads, available_calls, reads_app, poll_world_reads,
      request_block_reads. simpl. rewrite app_nil_r. reflexivity.
Qed.

Lemma iteration_cases (timeout start : Z) (w : World E) :
  pending int_bits timeout start w 0 \/
  6 <= available_at timeout 0 w \/
  (0 < timeout /\ available_at timeout 0 w < 6 /\
   expired int_bits timeout (millis_at timeout 0 w) start = true).
Proof.
  unfold pending.
  destruct (Z.lt_ge_cases (available_at timeout 0 w) 6) as [Hlt | Hge];
    [| right; left; assumption].
  destruct (Z.lt_ge_cases 0 timeout) as [Ht | Ht];
    [| left; split; [assumption | lia]].
  destruct (expired int_bits timeout (millis_at timeout 0 w) start) eqn:Hex;
    [right; right | left]; auto.
Qed.

Lemma wait_block_returns_by (timeout start : Z) (n : nat) :
  forall (fuel : nat) (w : World E),
    ~ pending int_bits timeout start w n -> (n < fuel)%nat ->
    exists how w', wait_block int_bits fuel timeout start w = Some (how, w').
Proof.
  induction n as [| n IH]; intros fuel w Hnp Hf.
  - destruct (iteration_cases timeout start w) as [Hp | [Hr | (Ht & Hav & Hex)]].
    + contradiction.
    + eexists. eexists.
      apply (wait_block_ready int_bits timeout start 0 fuel w);
        [intros k Hk; lia | assumption | assumption].
    + eexists. eexists.
      apply (wait_block_timed_out int_bits timeout start 0 fuel w);
        [assumption | intros k Hk; lia | assumption | assumption | assumption].
  - destruct (iteration_cases timeout start w) as [Hp | [Hr | (Ht & Hav & Hex)]].
    + destruct fuel as [| fuel]; [lia |].
      rewrite wait_block_step by assumption.
      apply IH; [| lia].
      intros Hq. apply Hnp. apply (proj2 (pending_shift int_bits timeout start w n)).
      exact Hq.
    + eexists. eexists.
      apply (wait_block_ready int_bits timeout start 0 fuel w);
        [intros k Hk; lia | assumption | lia].
    + eexists. eexists.
      apply (wait_block_timed_out int_bits timeout start 0 fuel w);
        [assumption | intros k Hk; lia | assumption | assumption | lia].
Qed.

Lemma read_vector_returns_by (reg : Z) (store : vector Z -> LSM6 -> LSM6)
      (self : LSM6) (w : World E) (n fuel : nat) :
  0 < io_timeout self ->
  expired int_bits (io_timeout self)
          (millis_at (io_timeout self) n (poll_start reg self w))
          (start_time reg self w) = true ->
  (n < fuel)%nat ->
  exists self' w', read_vector int_bits reg store fuel self w = Some (self', w').
Proof.
  intros Ht Hex Hf. rewrite read_vector_split.
  destruct (wait_block_returns_by (io_timeout self) (start_time reg self w) n fuel
              (poll_start reg self w)) as (how & w1 & Hwait).
  - intros [_ Hno]. specialize (Hno Ht). congruence.
  - assumption.
  - rewrite Hwait. destruct how; eexists; eexists; reflexivity.
Qed.

Lemma read_vector_hangs_on_wide_int (reg : Z) (store : vector Z -> LSM6 -> LSM6)
      (self : LSM6) (w : World E) (fuel : nat) :
  16 < int_bits ->
  65535 <= start_time reg self w + io_timeout self ->
  (forall k, (k < fuel)%nat ->
     available_at (io_timeout self) k (poll_start reg self w) < 6) ->
  read_vector int_bits reg store fuel self w = None.
Proof.
  intros Hw Hlate Hav. rewrite read_vector_split.
  rewrite wait_block_pending; [reflexivity |].
  intros k Hk. split; [apply Hav; assumption |]. intros _.
  unfold expired, elapsed, sub_u16, to_uint16.
  destruct (Z.leb_spec int_bits 16); [lia |].
  apply Z.ltb_ge.
  pose proof (Z.mod_pos_bound
                (millis_at (io_timeout self) k (poll_start reg self w))
                (2 ^ 16) ltac:(reflexivity)) as Hb.
  change (2 ^ 16) with 65536 in *. lia.
Qed.

End Deadlines.

Section Further2.

Context {E : Type} {P : Platform E} {R : RegAddr}.

(** X4. With any timeout configured, a read succeeds when six bytes
    arrive before any poll has seen the timeout expired: it returns having
    taken exactly the next six bytes from the bus, with the vector
    assigned from them ([(int16_t)(h << 8 | l)] per axis, low byte first,
    X then Y then Z), the timeout flag and every other member as before.
    The bytes are looked at first in every iteration, so the clock in the
    iteration in which they arrive does not matter. *)
Theorem read_ready_before_timeout
        (int_bits : Z) (self : LSM6) (w : World E) (n fuel : nat) :
  (n < fuel)%nat ->
  ((forall k, (k < n)%nat ->
      pending int_bits (io_timeout self) (start_time OUTX_L_XL self w)
              (poll_start OUTX_L_XL self w) k) ->
   6 <= available_at (io_timeout self) n (poll_start OUTX_L_XL self w) ->
   exists xl xh yl yh zl zh w',
     w' = snd (next_bytes 6 (snd (tw_available
                                    (poll_world (io_timeout self) n
                                       (poll_start OUTX_L_XL self w))))) /\
     fst (next_bytes 6 (snd (tw_available
                               (poll_world (io_timeout self) n
                                  (poll_start OUTX_L_XL self w)))))
     = [xl; xh; yl; yh; zl; zh] /\
     readAcc int_bits fuel self w
     = Some (mkLSM6 (mkVector (combine int_bits (to_uint8 xh) (to_uint8 xl))
                              (combine int_bits (to_uint8 yh) (to_uint8 yl))
                              (combine int_bits (to_uint8 zh) (to_uint8 zl)))
                    (g self) (last_status self) (_device self) (address self)
                    (io_timeout self) (did_timeout self),
             w') /\
     reads (calls w') = reads (calls w) ++ [xl; xh; yl; yh; zl; zh]) /\
  ((forall k, (k < n)%nat ->
      pending int_bits (io_timeout self) (start_time OUTX_L_G self w)
              (poll_start OUTX_L_G self w) k) ->
   6 <= available_at (io_timeout self) n (poll_start OUTX_L_G self w) ->
   exists xl xh yl yh zl zh w',
     w' = snd (next_bytes 6 (snd (tw_available
                                    (poll_world (io_timeout self) n
                                       (poll_start OUTX_L_G self w))))) /\
     fst (next_bytes 6 (snd (tw_available
                               (poll_world (io_timeout self) n
                                  (poll_start OUTX_L_G self w)))))
     = [xl; xh; yl; yh; zl; zh] /\
     readGyro int_bits fuel self w
     = Some (mkLSM6 (a self)
                    (mkVector (combine int_bits (to_uint8 xh) (to_uint8 xl))
                              (combine int_bits (to_uint8 yh) (to_uint8 yl))
                              (combine int_bits (to_uint8 zh) (to_uint8 zl)))
                    (last_status self) (_device self) (address self)
                    (io_timeout self) (did_timeout self),
             w') /\
     reads (calls w') = reads (calls w) ++ [xl; xh; yl; yh; zl; zh]).
Proof.
  intros Hf. split; intros Hp Hav.
  - destruct (read_vector_ready int_bits OUTX_L_XL set_a self w n fuel Hp Hav Hf)
      as (xl & xh & yl & yh & zl & zh & Hbytes & Hrun & Hreads).
    exists xl, xh, yl, yh, zl, zh. eexists.
    split; [reflexivity |]. split; [exact Hbytes |].
    split; [exact Hrun | exact Hreads].
  - destruct (read_vector_ready int_bits OUTX_L_G set_g self w n fuel Hp Hav Hf)
      as (xl & xh & yl & yh & zl & zh & Hbytes & Hrun & Hreads).
    exists xl, xh, yl, yh, zl, zh. eexists.
    split; [reflexivity |]. split; [exact Hbytes |].
    split; [exact Hrun | exact Hreads].
Qed.

(** X5. With a timeout configured, a read returns no later than the
    first iteration in which the loop's own test would see the timeout
    expired: given more iterations than that, the call has returned,
    with data or with the flag set. *)
Theorem read_returns_by_deadline
        (int_bits : Z) (self : LSM6) (w : World E) (n fuel : nat) :
  0 < io_timeout self -> (n < fuel)%nat ->
  (expired int_bits (io_timeout self)
           (millis_at (io_timeout self) n (poll_start OUTX_L_XL self w))
           (start_time OUTX_L_XL self w) = true ->
   exists self' w', readAcc int_bits fuel self w = Some (self', w')) /\
  (expired int_bits (io_timeout self)
           (millis_at (io_timeout self) n (poll_start OUTX_L_G self w))
           (start_time OUTX_L_G self w) = true ->
   exists self' w', readGyro int_bits fuel self w = Some (self', w')).
Proof.
  intros Ht Hf. split; intros Hex.
  - exact (read_vector_returns_by int_bits OUTX_L_XL set_a self w n fuel Ht Hex Hf).
  - exact (read_vector_returns_by int_bits OUTX_L_G set_g self w n fuel Ht Hex Hf).
Qed.

(** X6. Where [int] is wider than 16 bits, a read that starts within
    [io_timeout] milliseconds of the wrap of the 16-bit clock value
    ([millis_start + io_timeout >= 65535]) can never time out: as long as
    fewer than six bytes are available it is still polling, whatever the
    clock does. *)
Theorem read_cannot_time_out_near_wrap
        (int_bits : Z) (self : LSM6) (w : World E) (fuel : nat) :
  16 < int_bits ->
  (65535 <= start_time OUTX_L_XL self w + io_timeout self ->
   (forall k, (k < fuel)%nat ->
      available_at (io_timeout self) k (poll_start OUTX_L_XL self w) < 6) ->
   readAcc int_bits fuel self w = None) /\
  (65535 <= start_time OUTX_L_G self w + io_timeout self ->
   (forall k, (k < fuel)%nat ->
      available_at (io_timeout self) k (poll_start OUTX_L_G self w) < 6) ->
   readGyro int_bits fuel self w = None).
Proof.
  intros Hw. split; intros Hlate Hav.
  - exact (read_vector_hangs_on_wide_int int_bits OUTX_L_XL set_a self w fuel
             Hw Hlate Hav).
  - exact (read_vector_hangs_on_wide_int int_bits OUTX_L_G set_g self w fuel
             Hw Hlate Hav).
Qed.

End Further2.

(** X7. The timeout test of the poll loop by the width of [int], for any
    value [t] of [millis()] and any [millis_start]: with a 16-bit [int]
    the timeout is seen as expired exactly when it is less than the
    difference modulo 2^16; with a wider [int], exactly when it is less
    than the signed difference of the 16-bit clock value and
    [millis_start]. *)
Theorem timeout_test_by_int_width (timeout t millis_start : Z) :
  (expired 16 timeout t millis_start = true
   <-> timeout < (t - millis_start) mod 2 ^ 16) /\
  (forall int_bits : Z,
      16 < int_bits ->
      (expired int_bits timeout t millis_start = true
       <-> timeout < t mod 2 ^ 16 - millis_start)).
Proof.
  split.
  - unfold expired, elapsed, sub_u16, to_uint16. simpl (16 <=? 16). cbv iota.
    rewrite Zminus_mod_idemp_l. apply Z.ltb_lt.
  - intros int_bits Hw. unfold expired, elapsed, sub_u16, to_uint16.
    destruct (Z.leb_spec int_bits 16); [lia |]. apply Z.ltb_lt.
Qed.

Section Registers.

Context {E : Type} {P : Platform E} {R : RegAddr}.



(** X9. [enableDefault] does nothing at all for a driver whose device is
    undetermined: the object and the bus are as before.  This is the case
    of a freshly constructed driver, also after any number of calls of
    [init] that returned [false]. *)
Theorem enableDefault_needs_detected_device :
  (forall (self : LSM6) (w : World E),
      _device self = device_auto -> enableDefault self w = (self, w)) /\
  (forall (a0 g0 : vector Z) (status0 address0 : Z) (w : World E),
      enableDefault (LSM6_new a0 g0 status0 address0) w
      = (LSM6_new a0 g0 status0 address0, w)) /\
  (forall (device : deviceType) (sa0 : sa0State) (self self' : LSM6)
          (w w' w'' : World E),
      _device self = device_auto ->
      init device sa0 self w = (false, self', w') ->
      enableDefault self' w'' = (self', w'')).
Proof.
  assert (Hnoop : forall (self : LSM6) (w : World E),
             _device self = device_auto -> enableDefault self w = (self, w)).
  { intros self w Hdev. unfold enableDefault. rewrite Hdev. reflexivity. }
  split; [exact Hnoop |]. split.
  - intros a0 g0 status0 address0 w. apply Hnoop. reflexivity.
  - intros device sa0 self self' w w' w'' Hdev Hrun. apply Hnoop.
    unfold init, bind, ret in Hrun.
    destruct (unresolved device sa0); [| discriminate].
    destruct (detect device sa0 w) as [[d s] w1].
    destruct (unresolved d s); inversion Hrun; subst; assumption.
Qed.


Lemma testReg_read_log (addr reg r : Z) (w w' : World E) :
  testReg addr reg w = (r, w') -> r <> TEST_REG_ERROR ->
  exists n b,
    n <> 0 /\ r = to_int16 b /\
    calls w'
    = calls w ++ [BeginTransmission addr; Write (to_uint8 reg);
                  EndTransmission 0; RequestFrom addr 1; Available n; Read b].
Proof.
  unfold testReg, bind, ret, tw_beginTransmission, tw_write, tw_requestFrom,
    tw_endTransmission, tw_available, tw_read, log. simpl.
  destruct (endTransmission _) as [s e1]. simpl.
  destruct (Z.eqb_spec s 0) as [-> | Hs]; simpl.
  - destruct (available _) as [n e2]. simpl.
    destruct (Z.eqb_spec n 0) as [-> | Hn]; simpl.
    + intros Hrun Hr. inversion Hrun. congruence.
    + destruct (read _) as [b e3]. simpl. intros Hrun _. inversion Hrun.
      exists n, b. rewrite <- !app_assoc. simpl. repeat split. assumption.
  - intros Hrun Hr. inversion Hrun. congruence.
Qed.

(** X11. Any result of [testReg] other than the error value is a byte
    that was really read: the transmission of the register address was
    acknowledged with status 0, one byte was requested from the address,
    [available()] answered something other than 0 and the result is what
    [read()] then returned. *)
Theorem testReg_value_was_read (addr reg r : Z) (w w' : World E) :
  testReg addr reg w = (r, w') -> r <> TEST_REG_ERROR ->
  exists n b,
    n <> 0 /\ r = to_int16 b /\
    calls w'
    = calls w ++ [BeginTransmission addr; Write (to_uint8 reg);
                  EndTransmission 0; RequestFrom addr 1; Available n; Read b].
Proof. exact (testReg_read_log addr reg r w w'). Qed.

End Registers.

Section Detection.

Context {E : Type} {P : Platform E} {R : RegAddr}.

Lemma store_identity_resolved (device : deviceType) (sa0 : sa0State)
      (self : LSM6) :
  unresolved device sa0 = false ->
  _device (store_identity device sa0 self) = device_DS33 /\
  (address (store_identity device sa0 self) = DS33_SA0_HIGH_ADDRESS \/
   address (store_identity device sa0 self) = DS33_SA0_LOW_ADDRESS).
Proof.
  destruct device, sa0; simpl; intros Hres; try discriminate; auto.
Qed.

(** X12. Whenever [init] returns [true], the stored device is the DS33
    and the stored address is one of the two DS33 addresses, 0x6b or
    0x6a; the result vectors, the last status, the timeout and the
    timeout flag are as before the call. *)
Theorem init_success_stores_ds33
        (device : deviceType) (sa0 : sa0State) (self self' : LSM6)
        (w w' : World E) :
  init device sa0 self w = (true, self', w') ->
  _device self' = device_DS33 /\
  (address self' = DS33_SA0_HIGH_ADDRESS \/
   address self' = DS33_SA0_LOW_ADDRESS) /\
  (a self', g self', last_status self', io_timeout self', did_timeout self')
  = (a self, g self, last_status self, io_timeout self, did_timeout self).
Proof.
  unfold init, bind, ret. intros Hrun.
  assert (Hstored : exists d s,
             unresolved d s = false /\ self' = store_identity d s self).
  { destruct (unresolved device sa0) eqn:Hauto.
    - destruct (detect device sa0 w) as [[d s] w1].
      destruct (unresolved d s) eqn:Hres; inversion Hrun.
      exists d, s. split; [assumption | reflexivity].
    - inversion Hrun. exists device, sa0. split; [assumption | reflexivity]. }
  destruct Hstored as (d & s & Hres & ->).
  destruct (store_identity_resolved d s self Hres) as [Hdev Haddr].
  split; [assumption |]. split; [assumption | reflexivity].
Qed.

Lemma testReg_traffic (addr reg : Z) (w : World E) :
  writes (calls (snd (testReg addr reg w))) = writes (calls w) ++ [to_uint8 reg] /\
  (length (reads (calls (snd (testReg addr reg w))))
   <= S (length (reads (calls w))))%nat.
Proof.
  unfold testReg, bind, ret, tw_beginTransmission, tw_write, tw_requestFrom,
    tw_endTransmission, tw_available, tw_read, log. simpl.
  destruct (endTransmission _) as [s e1]. simpl.
  destruct (s =? 0); simpl.
  - destruct (available _) as [n e2]. simpl.
    destruct (n =? 0); simpl.
    + rewrite !writes_app, !reads_app. simpl. rewrite !app_nil_r.
      split; [reflexivity | lia].
    + destruct (read _) as [b e3]. simpl.
      rewrite !writes_app, !reads_app, !length_app. simpl. rewrite !app_nil_r.
      split; [reflexivity | lia].
  - rewrite !writes_app, !reads_app. simpl. rewrite !app_nil_r.
    split; [reflexivity | lia].
Qed.

Lemma first_accepted_traffic (cs : list sa0State) (w : World E) :
  exists k,
    (k <= length cs)%nat /\
    writes (calls (snd (first_accepted cs w)))
    = writes (calls w) ++ repeat (to_uint8 WHO_AM_I) k /\
    length (begins (calls (snd (first_accepted cs w))))
    = (length (begins (calls w)) + k)%nat /\
    (length (reads (calls (snd (first_accepted cs w))))
     <= length (reads (calls w)) + k)%nat.
Proof.
  revert w. induction cs as [| c cs IH]; intros w.
  - exists O. simpl. rewrite app_nil_r. repeat split; lia.
  - simpl. unfold bind, identifies, bind, ret.
    destruct (testReg_traffic (candidate_address c) WHO_AM_I w) as [Hw Hr].
    pose proof (testReg_begins (candidate_address c) WHO_AM_I w) as Hb.
    destruct (testReg (candidate_address c) WHO_AM_I w) as [r w1].
    simpl in Hw, Hr, Hb.
    destruct (r =? DS33_WHO_ID).
    + exists 1%nat. simpl. rewrite Hw, Hb, length_app. simpl.
      repeat split; lia.
    + destruct (IH w1) as (k & Hk & Hwk & Hbk & Hrk).
      exists (S k). rewrite Hwk, Hbk, Hw, Hb, length_app, <- app_assoc. simpl.
      repeat split; lia.
Qed.

(** X13. [init] only ever asks for the identity: it makes at most two
    transmissions, each writes the single byte [WHO_AM_I], and it takes at
    most one byte per transmission from the bus.  No register of the
    device is written. *)
Theorem init_only_asks_identity
        (device : deviceType) (sa0 : sa0State) (self : LSM6) (w : World E) :
  exists k,
    (k <= 2)%nat /\
    writes (calls (snd (init device sa0 self w)))
    = writes (calls w) ++ repeat (to_uint8 WHO_AM_I) k /\
    length (begins (calls (snd (init device sa0 self w))))
    = (length (begins (calls w)) + k)%nat /\
    (length (reads (calls (snd (init device sa0 self w))))
     <= length (reads (calls w)) + k)%nat.
Proof.
  destruct (unresolved device sa0) eqn:Hauto.
  - rewrite init_refines by assumption. unfold init_by_candidates, bind.
    destruct (first_accepted_traffic (candidates sa0) w)
      as (k & Hk & Hw & Hb & Hr).
    assert (Hlen : (length (candidates sa0) <= 2)%nat)
      by (destruct sa0; simpl; lia).
    exists k. split; [lia |].
    destruct (first_accepted (candidates sa0) w) as [[c |] w1]; simpl in *;
      repeat split; assumption.
  - unfold init. rewrite Hauto. simpl. exists O. simpl. rewrite app_nil_r.
    repeat split; lia.
Qed.

End Detection.

(** X14. The value stored for an axis lies in the [int16_t] range, is
    negative exactly when the high byte has its top bit set, and keeps
    both bytes: its low eight bits are the low byte and the next eight
    the high byte. *)
Theorem combine_keeps_bytes (int_bits xl xh : Z) :
  16 <= int_bits -> is_uint8 xl -> is_uint8 xh ->
  - 2 ^ 15 <= combine int_bits xh xl < 2 ^ 15 /\
  (combine int_bits xh xl < 0 <-> 128 <= xh) /\
  to_uint16 (combine int_bits xh xl) = xl + 256 * xh /\
  to_uint8 (combine int_bits xh xl) = xl /\
  to_uint16 (combine int_bits xh xl) / 256 = xh.
Proof.
  intros Hw Hl Hh. rewrite combine_decodes by assumption.
  unfold is_uint8 in *. unfold twos_complement16, to_uint16, to_uint8.
  change (2 ^ 8) with 256 in *. change (2 ^ 15) with 32768.
  change (2 ^ 16) with 65536.
  assert (Hu : forall v, 0 <= xl + 256 * xh + v * 65536 < 65536 -> v = 0)
    by (intros v Hv; lia).
  assert (Hmod : (if xl + 256 * xh <? 32768 then xl + 256 * xh
                  else xl + 256 * xh - 65536) mod 65536 = xl + 256 * xh).
  { destruct (Z.ltb_spec (xl + 256 * xh) 32768).
    - apply Z.mod_small. lia.
    - replace (xl + 256 * xh - 65536) with (xl + 256 * xh + (-1) * 65536) by lia.
      rewrite Z.mod_add by lia. apply Z.mod_small. lia. }
  assert (Hlow : (if xl + 256 * xh <? 32768 then xl + 256 * xh
                  else xl + 256 * xh - 65536) mod 256 = xl).
  { destruct (Z.ltb_spec (xl + 256 * xh) 32768).
    - replace (xl + 256 * xh) with (xl + xh * 256) by lia.
      rewrite Z.mod_add by lia. apply Z.mod_small. lia.
    - replace (xl + 256 * xh - 65536) with (xl + (xh - 256) * 256) by lia.
      rewrite Z.mod_add by lia. apply Z.mod_small. lia. }
  rewrite Hmod, Hlow.
  split; [destruct (Z.ltb_spec (xl + 256 * xh) 32768); lia |].
  split; [destruct (Z.ltb_spec (xl + 256 * xh) 32768); lia |].
  split; [reflexivity |]. split; [reflexivity |].
  replace (xl + 256 * xh) with (xl + xh * 256) by lia.
  rewrite Z.div_add by lia. rewrite Z.div_small by lia. lia.
Qed.

Section Timeout.

Context {E : Type} {P : Platform E} {R : RegAddr}.

(** X15. [setTimeout] stores its argument as a [uint16_t] and
    [getTimeout] gives it back: a value in 0..65535 is returned as it
    was set, and nothing else in the object changes.  A multiple of 65536
    is stored as 0, which switches the timeout off: a read after it
    never sets the timeout flag. *)
Theorem setTimeout_getTimeout (timeout : Z) (self : LSM6) :
  getTimeout (setTimeout timeout self) = timeout mod 2 ^ 16 /\
  (is_uint16 timeout -> getTimeout (setTimeout timeout self) = timeout) /\
  (a (setTimeout timeout self), g (setTimeout timeout self),
   last_status (setTimeout timeout self), _device (setTimeout timeout self),
   address (setTimeout timeout self), did_timeout (setTimeout timeout self))
  = (a self, g self, last_status self, _device self, address self,
     did_timeout self) /\
  (timeout mod 2 ^ 16 = 0 ->
   forall (int_bits : Z) (fuel : nat) (self' : LSM6) (w w' : World E),
     (readAcc int_bits fuel (setTimeout timeout self) w = Some (self', w') ->
      did_timeout self' = did_timeout self) /\
     (readGyro int_bits fuel (setTimeout timeout self) w = Some (self', w') ->
      did_timeout self' = did_timeout self)).
Proof.
  split; [reflexivity |].
  split; [intros Ht; apply Z.mod_small; exact Ht |].
  split; [reflexivity |].
  intros Hzero int_bits fuel self' w w'.
  assert (Hoff : io_timeout (setTimeout timeout self) = 0) by exact Hzero.
  split; intros Hrun.
  - destruct (read_vector_no_timeout_exit int_bits OUTX_L_XL set_a fuel
                (setTimeout timeout self) self' w w' Hoff Hrun) as [[v ->] _].
    reflexivity.
  - destruct (read_vector_no_timeout_exit int_bits OUTX_L_G set_g fuel
                (setTimeout timeout self) self' w w' Hoff Hrun) as [[v ->] _].
    reflexivity.
Qed.

End Timeout.

Section Accepted.

Context {E : Type} {P : Platform E} {R : RegAddr}.

Lemma first_accepted_answered (cs : list sa0State) (w w' : World E)
      (c : sa0State) :
  first_accepted cs w = (Some c, w') ->
  exists before n b,
    n <> 0 /\ to_int16 b = DS33_WHO_ID /\
    calls w'
    = calls w ++ before
        ++ [BeginTransmission (candidate_address c); Write (to_uint8 WHO_AM_I);
            EndTransmission 0; RequestFrom (candidate_address c) 1;
            Available n; Read b].
Proof.
  revert w. induction cs as [| c0 cs IH]; intros w; simpl; [discriminate |].
  unfold bind, identifies, bind, ret.
  destruct (testReg (candidate_address c0) WHO_AM_I w) as [r w1] eqn:Hprobe.
  destruct (Z.eqb_spec r DS33_WHO_ID) as [Hr | Hr].
  - intros Hrun. inversion Hrun; subst c0 w1.
    destruct (testReg_read_log _ _ _ _ _ Hprobe) as (n & b & Hn & Hb & Hcalls).
    { rewrite Hr. discriminate. }
    exists [], n, b. split; [assumption |]. split; [congruence |].
    rewrite Hcalls. reflexivity.
  - intros Hrun. destruct (IH w1 Hrun) as (before & n & b & Hn & Hb & Hcalls).
    assert (Hext : exists l, calls w1 = calls w ++ l).
    { clear - Hprobe. revert Hprobe.
      unfold testReg, bind, ret, tw_beginTransmission, tw_write, tw_requestFrom,
        tw_endTransmission, tw_available, tw_read, log. simpl.
      destruct (endTransmission _) as [s e1]. simpl.
      destruct (s =? 0); simpl.
      - destruct (available _) as [m e2]. simpl.
        destruct (m =? 0); simpl.
        + intros H; inversion H. rewrite <- !app_assoc. eexists; reflexivity.
        + destruct (read _) as [b0 e3]. simpl.
          intros H; inversion H. rewrite <- !app_assoc. eexists; reflexivity.
      - intros H; inversion H. rewrite <- !app_assoc. eexists; reflexivity. }
    destruct Hext as [l Hl].
    exists (l ++ before), n, b. split; [assumption |]. split; [assumption |].
    rewrite Hcalls, Hl, <- !app_assoc. reflexivity.
Qed.

(** X16. A detection that succeeds stores the address that answered:
    when [init] is called with the device or the SA0 state left open and
    returns [true], the last thing on the bus was an acknowledged probe
    of the identity register at the stored address, and the byte read
    there is the chip's identity 0x69. *)
Theorem init_stores_address_that_answered
        (device : deviceType) (sa0 : sa0State) (self self' : LSM6)
        (w w' : World E) :
  unresolved device sa0 = true ->
  init device sa0 self w = (true, self', w') ->
  exists before n b,
    n <> 0 /\ to_int16 b = DS33_WHO_ID /\
    calls w'
    = calls w ++ before
        ++ [BeginTransmission (address self'); Write (to_uint8 WHO_AM_I);
            EndTransmission 0; RequestFrom (address self') 1;
            Available n; Read b].
Proof.
  intros Hauto. rewrite init_refines by assumption.
  unfold init_by_candidates, bind, ret.
  destruct (first_accepted (candidates sa0) w) as [[c |] w1] eqn:Hsearch;
    intros Hrun; inversion Hrun; subst.
  exact (first_accepted_answered (candidates sa0) w w' c Hsearch).
Qed.

End Accepted.

(** ** Instances of the further properties *)

Lemma read_transaction_shape_witness :
  let self := Sim.running 0 in
  let w := Sim.world (Sim.bus Sim.only_low 3 0 1) in
  exists self' w',
    readAcc (P := Sim.platform) (R := Sim.ds33_map) 16 10 self w
    = Some (self', w') /\
    exists s t polls bs,
      calls w'
      = calls w ++ [BeginTransmission (address self);
                    Write (to_uint8 (OUTX_L_XL (RegAddr := Sim.ds33_map)));
                    EndTransmission s; RequestFrom (address self) 6; Millis t]
                ++ polls ++ map Read bs /\
      Forall poll_call polls /\
      ((bs = [] /\ self' = set_did_timeout true self) \/
       (length bs = 6%nat /\ exists v, self' = set_a v self)).
Proof.
  cbv zeta.
  destruct (readAcc (P := Sim.platform) (R := Sim.ds33_map) 16 10
              (Sim.running 0) (Sim.world (Sim.bus Sim.only_low 3 0 1)))
    as [[self' w'] |] eqn:Hrun.
  - exists self', w'. split; [reflexivity |].
    exact (proj1 (@read_transaction_shape Sim.Bus Sim.platform Sim.ds33_map
                    16 10 (Sim.running 0) self'
                    (Sim.world (Sim.bus Sim.only_low 3 0 1)) w') Hrun).
  - vm_compute in Hrun. discriminate Hrun.
Defined.

Lemma read_all_runs_both_witness :
  let self := Sim.running 0 in
  let w := Sim.world (Sim.bus Sim.only_low 3 0 1) in
  exists self' w',
    read_all (P := Sim.platform) (R := Sim.ds33_map) 16 10 self w
    = Some (self', w') /\
    requests (calls w')
    = requests (calls w) ++ [(address self, 6); (address self, 6)].
Proof.
  cbv zeta.
  destruct (read_all (P := Sim.platform) (R := Sim.ds33_map) 16 10
              (Sim.running 0) (Sim.world (Sim.bus Sim.only_low 3 0 1)))
    as [[self' w'] |] eqn:Hrun.
  - exists self', w'. split; [reflexivity |].
    exact (proj1 (@read_all_runs_both Sim.Bus Sim.platform Sim.ds33_map
                    16 10 (Sim.running 0) self'
                    (Sim.world (Sim.bus Sim.only_low 3 0 1)) w' Hrun)).
  - vm_compute in Hrun. discriminate Hrun.
Defined.

Lemma reads_never_clear_flag_witness :
  let self := set_did_timeout true (Sim.running 0) in
  let w := Sim.world (Sim.bus Sim.only_low 3 0 1) in
  did_timeout self = true /\
  exists self' w',
    read_all (P := Sim.platform) (R := Sim.ds33_map) 16 10 self w
    = Some (self', w') /\
    did_timeout self' = true.
Proof.
  cbv zeta. split; [reflexivity |].
  destruct (read_all (P := Sim.platform) (R := Sim.ds33_map) 16 10
              (set_did_timeout true (Sim.running 0))
              (Sim.world (Sim.bus Sim.only_low 3 0 1)))
    as [[self' w'] |] eqn:Hrun.
  - exists self', w'. split; [reflexivity |].
    exact (proj2 (proj2 (@reads_never_clear_flag Sim.Bus Sim.platform
                           Sim.ds33_map 16 10
                           (set_did_timeout true (Sim.running 0)) self'
                           (Sim.world (Sim.bus Sim.only_low 3 0 1)) w'
                           eq_refl)) Hrun).
  - vm_compute in Hrun. discriminate Hrun.
Defined.

Lemma read_ready_before_timeout_witness :
  let self := Sim.running 100 in
  let w := Sim.world (Sim.bus Sim.only_low 2 0 1) in
  (forall k, (k < 2)%nat ->
     pending (P := Sim.platform) 16 (io_timeout self)
             (start_time (P := Sim.platform)
                         (OUTX_L_XL (RegAddr := Sim.ds33_map)) self w)
             (poll_start (P := Sim.platform)
                         (OUTX_L_XL (RegAddr := Sim.ds33_map)) self w) k) /\
  6 <= available_at (P := Sim.platform) (io_timeout self) 2
         (poll_start (P := Sim.platform)
                     (OUTX_L_XL (RegAddr := Sim.ds33_map)) self w) /\
  exists w',
    readAcc (P := Sim.platform) (R := Sim.ds33_map) 16 5 self w
    = Some (set_a (mkVector 4660 32767 (-100)) self, w') /\
    reads (calls w') = [0x34; 0x12; 0xff; 0x7f; 0x9c; 0xff].
Proof.
  cbv zeta.
  assert (Hp : forall k, (k < 2)%nat ->
     pending (P := Sim.platform) 16 (io_timeout (Sim.running 100))
             (start_time (P := Sim.platform)
                         (OUTX_L_XL (RegAddr := Sim.ds33_map))
                         (Sim.running 100)
                         (Sim.world (Sim.bus Sim.only_low 2 0 1)))
             (poll_start (P := Sim.platform)
                         (OUTX_L_XL (RegAddr := Sim.ds33_map))
                         (Sim.running 100)
                         (Sim.world (Sim.bus Sim.only_low 2 0 1))) k).
  { intros k Hk. destruct k as [| [| k]]; [| | lia];
      (split; [vm_compute; reflexivity | intros _; vm_compute; reflexivity]). }
  assert (Hav : 6 <= available_at (P := Sim.platform)
                       (io_timeout (Sim.running 100)) 2
                       (poll_start (P := Sim.platform)
                                   (OUTX_L_XL (RegAddr := Sim.ds33_map))
                                   (Sim.running 100)
                                   (Sim.world (Sim.bus Sim.only_low 2 0 1))))
    by (vm_compute; discriminate).
  split; [exact Hp |]. split; [exact Hav |].
  destruct (proj1 (@read_ready_before_timeout Sim.Bus Sim.platform Sim.ds33_map
                     16 (Sim.running 100)
                     (Sim.world (Sim.bus Sim.only_low 2 0 1)) 2%nat 5%nat
                     ltac:(lia)) Hp Hav)
    as (xl & xh & yl & yh & zl & zh & w' & _ & Hbytes & Hrun & Hreads).
  vm_compute in Hbytes. inversion Hbytes; subst.
  exists w'. split; [rewrite Hrun; reflexivity | exact Hreads].
Defined.

Lemma read_returns_by_deadline_witness :
  let self := Sim.running 3 in
  let w := Sim.world (Sim.bus Sim.nobody 0 65534 1) in
  0 < io_timeout self /\
  exists self' w',
    readAcc (P := Sim.platform) (R := Sim.ds33_map) 16 10 self w
    = Some (self', w').
Proof.
  cbv zeta. split; [reflexivity |].
  apply (proj1 (@read_returns_by_deadline Sim.Bus Sim.platform Sim.ds33_map
                  16 (Sim.running 3)
                  (Sim.world (Sim.bus Sim.nobody 0 65534 1)) 3%nat 10%nat
                  eq_refl ltac:(lia))).
  vm_compute. reflexivity.
Defined.

Lemma read_cannot_time_out_near_wrap_witness :
  let self := Sim.running 3 in
  let w := Sim.world (Sim.bus Sim.nobody 0 65534 1) in
  16 < 32 /\
  65535 <= start_time (P := Sim.platform)
                      (OUTX_L_XL (RegAddr := Sim.ds33_map)) self w
           + io_timeout self /\
  readAcc (P := Sim.platform) (R := Sim.ds33_map) 32 5 self w = None.
Proof.
  cbv zeta.
  assert (Hlate : 65535 <= start_time (P := Sim.platform)
                             (OUTX_L_XL (RegAddr := Sim.ds33_map))
                             (Sim.running 3)
                             (Sim.world (Sim.bus Sim.nobody 0 65534 1))
                           + io_timeout (Sim.running 3))
    by (vm_compute; discriminate).
  split; [lia |]. split; [exact Hlate |].
  apply (proj1 (@read_cannot_time_out_near_wrap Sim.Bus Sim.platform
                  Sim.ds33_map 32 (Sim.running 3)
                  (Sim.world (Sim.bus Sim.nobody 0 65534 1)) 5%nat
                  ltac:(lia)) Hlate).
  intros k Hk.
  destruct k as [| [| [| [| [| k]]]]]; [vm_compute; reflexivity .. | lia].
Defined.

Lemma timeout_test_by_int_width_witness :
  expired 16 3 65538 65534 = true /\ expired 32 3 65538 65534 = false.
Proof.
  destruct (timeout_test_by_int_width 3 65538 65534) as [H16 Hwide].
  split.
  - apply (proj2 H16). vm_compute. reflexivity.
  - destruct (expired 32 3 65538 65534) eqn:Hex; [| reflexivity].
    apply (proj1 (Hwide 32 ltac:(lia))) in Hex. vm_compute in Hex.
    discriminate Hex.
Defined.


Lemma enableDefault_needs_detected_device_witness :
  let w := Sim.world (Sim.bus Sim.only_low 0 0 1) in
  _device Sim.fresh = device_auto /\
  enableDefault (P := Sim.platform) (R := Sim.ds33_map) Sim.fresh w
  = (Sim.fresh, w).
Proof.
  cbv zeta. split; [reflexivity |].
  apply (proj1 (@enableDefault_needs_detected_device Sim.Bus Sim.platform
                  Sim.ds33_map)).
  reflexivity.
Defined.

Lemma testReg_value_was_read_witness :
  let w := Sim.world (Sim.bus Sim.only_low 0 0 1) in
  exists r w',
    testReg (P := Sim.platform) DS33_SA0_LOW_ADDRESS 0x0f w = (r, w') /\
    r <> TEST_REG_ERROR /\
    exists n b,
      n <> 0 /\ r = to_int16 b /\
      calls w'
      = calls w ++ [BeginTransmission DS33_SA0_LOW_ADDRESS; Write (to_uint8 0x0f);
                    EndTransmission 0; RequestFrom DS33_SA0_LOW_ADDRESS 1;
                    Available n; Read b].
Proof.
  cbv zeta.
  destruct (testReg (P := Sim.platform) DS33_SA0_LOW_ADDRESS 0x0f
              (Sim.world (Sim.bus Sim.only_low 0 0 1))) as [r w'] eqn:Hrun.
  assert (Hr : r <> TEST_REG_ERROR).
  { vm_compute in Hrun. inversion Hrun. discriminate. }
  exists r, w'. split; [reflexivity |]. split; [exact Hr |].
  exact (@testReg_value_was_read Sim.Bus Sim.platform DS33_SA0_LOW_ADDRESS 0x0f
           r (Sim.world (Sim.bus Sim.only_low 0 0 1)) w' Hrun Hr).
Defined.

Lemma init_success_stores_ds33_witness :
  let w := Sim.world (Sim.bus Sim.only_high 0 0 1) in
  exists self' w',
    init (P := Sim.platform) (R := Sim.ds33_map) device_auto sa0_auto
         Sim.fresh w = (true, self', w') /\
    _device self' = device_DS33.
Proof.
  cbv zeta.
  destruct (init (P := Sim.platform) (R := Sim.ds33_map) device_auto sa0_auto
              Sim.fresh (Sim.world (Sim.bus Sim.only_high 0 0 1)))
    as [[r self'] w'] eqn:Hrun.
  assert (Hr : r = true) by (vm_compute in Hrun; inversion Hrun; reflexivity).
  subst r. exists self', w'. split; [reflexivity |].
  exact (proj1 (@init_success_stores_ds33 Sim.Bus Sim.platform Sim.ds33_map
                  device_auto sa0_auto Sim.fresh self'
                  (Sim.world (Sim.bus Sim.only_high 0 0 1)) w' Hrun)).
Defined.

Lemma combine_keeps_bytes_witness :
  16 <= 32 /\ is_uint8 0x9c /\ is_uint8 0xff /\
  to_uint8 (combine 32 0xff 0x9c) = 0x9c /\
  to_uint16 (combine 32 0xff 0x9c) / 256 = 0xff.
Proof.
  assert (Hw : 16 <= 32) by lia.
  assert (Hl : is_uint8 0x9c) by (unfold is_uint8; lia).
  assert (Hh : is_uint8 0xff) by (unfold is_uint8; lia).
  split; [exact Hw |]. split; [exact Hl |]. split; [exact Hh |].
  destruct (combine_keeps_bytes 32 0x9c 0xff Hw Hl Hh)
    as (_ & _ & _ & Hlow & Hhigh).
  split; [exact Hlow | exact Hhigh].
Defined.

Lemma setTimeout_getTimeout_witness :
  is_uint16 1000 /\ getTimeout (setTimeout 1000 Sim.fresh) = 1000.
Proof.
  assert (Ht : is_uint16 1000) by (unfold is_uint16; lia).
  split; [exact Ht |].
  exact (proj1 (proj2 (@setTimeout_getTimeout Sim.Bus Sim.platform Sim.ds33_map
                         1000 Sim.fresh)) Ht).
Defined.

Lemma init_stores_address_that_answered_witness :
  let w := Sim.world (Sim.bus Sim.only_low 0 0 1) in
  unresolved device_auto sa0_auto = true /\
  exists self' w',
    init (P := Sim.platform) (R := Sim.ds33_map) device_auto sa0_auto
         Sim.fresh w = (true, self', w') /\
    exists before n b,
      n <> 0 /\ to_int16 b = DS33_WHO_ID /\
      calls w'
      = calls w ++ before
          ++ [BeginTransmission (address self');
              Write (to_uint8 (WHO_AM_I (RegAddr := Sim.ds33_map)));
              EndTransmission 0; RequestFrom (address self') 1;
              Available n; Read b].
Proof.
  cbv zeta. split; [reflexivity |].
  destruct (init (P := Sim.platform) (R := Sim.ds33_map) device_auto sa0_auto
              Sim.fresh (Sim.world (Sim.bus Sim.only_low 0 0 1)))
    as [[r self'] w'] eqn:Hrun.
  assert (Hr : r = true) by (vm_compute in Hrun; inversion Hrun; reflexivity).
  subst r. exists self', w'. split; [reflexivity |].
  exact (@init_stores_address_that_answered Sim.Bus Sim.platform Sim.ds33_map
           device_auto sa0_auto Sim.fresh self'
           (Sim.world (Sim.bus Sim.only_low 0 0 1)) w' eq_refl Hrun).
Defined.

(** ** A read that can never give up *)

Lemma quiet_available (w : World Sim.Bus) :
  Sim.quiet w ->
  fst (tw_available (P := Sim.platform) w) = 0 /\
  Sim.quiet (snd (tw_available (P := Sim.platform) w)).
Proof.
  unfold Sim.quiet, tw_available. simpl. unfold Sim.sim_available.
  intros [Hrx Hlat]. rewrite Hlat, Hrx. simpl. auto.
Qed.

Lemma quiet_millis (w : World Sim.Bus) :
  Sim.quiet w -> Sim.quiet (snd (now_millis (P := Sim.platform) w)).
Proof. unfold Sim.quiet, now_millis. simpl. auto. Qed.

Lemma quiet_poll_world (timeout : Z) (k : nat) (w : World Sim.Bus) :
  Sim.quiet w -> Sim.quiet (poll_world (P := Sim.platform) timeout k w).
Proof.
  revert w. induction k as [| k IH]; intros w Hq; [exact Hq |].
  simpl. apply IH. destruct (0 <? timeout).
  - apply quiet_millis. apply quiet_available. exact Hq.
  - apply quiet_available. exact Hq.
Qed.

Lemma quiet_never_available (timeout : Z) (k : nat) (w : World Sim.Bus) :
  Sim.quiet w -> available_at (P := Sim.platform) timeout k w = 0.
Proof.
  intros Hq. unfold available_at.
  apply quiet_available. apply quiet_poll_world. exact Hq.
Qed.

(** C2. A read with a timeout of 3 ms on a target whose [int] has 32
    bits, started at [millis() = 65534] on a bus that never delivers a
    byte, the clock advancing by 1 ms per reading.  Fewer than six bytes
    are available in every iteration and the fourth iteration reads the
    clock at 65538, 4 ms after the start, so the timeout has passed; yet
    neither [readAcc] nor [readGyro] has returned after any number of
    iterations, and the flag is never set.  With a 16-bit [int] the same
    read returns in that fourth iteration with the flag set, the vector
    kept and no byte taken. *)
Theorem read_never_returns_after_wrap_on_32_bit_int :
  let self := Sim.running 3 in
  let w := Sim.world (Sim.bus Sim.nobody 0 65534 1) in
  let w0 := poll_start (P := Sim.platform)
                       (OUTX_L_XL (RegAddr := Sim.ds33_map)) self w in
  io_timeout self = 3 /\
  start_time (P := Sim.platform) (OUTX_L_XL (RegAddr := Sim.ds33_map)) self w
  = 65534 /\
  (forall k : nat, available_at (P := Sim.platform) 3 k w0 < 6) /\
  millis_at (P := Sim.platform) 3 3 w0 = 65538 /\
  (forall fuel : nat,
      readAcc (P := Sim.platform) (R := Sim.ds33_map) 32 fuel self w = None) /\
  (forall fuel : nat,
      readGyro (P := Sim.platform) (R := Sim.ds33_map) 32 fuel self w = None) /\
  exists w',
    readAcc (P := Sim.platform) (R := Sim.ds33_map) 16 4 self w
    = Some (set_did_timeout true self, w') /\
    reads (calls w') = reads (calls w).
Proof.
  cbv zeta.
  assert (Hquiet : forall reg,
             Sim.quiet (poll_start (P := Sim.platform) reg (Sim.running 3)
                          (Sim.world (Sim.bus Sim.nobody 0 65534 1))))
    by (intros reg; split; reflexivity).
  assert (Hstart : forall reg,
             start_time (P := Sim.platform) reg (Sim.running 3)
               (Sim.world (Sim.bus Sim.nobody 0 65534 1)) = 65534)
    by (intros reg; reflexivity).
  split; [reflexivity |]. split; [apply Hstart |].
  split; [intros k; rewrite quiet_never_available by apply Hquiet; lia |].
  split; [vm_compute; reflexivity |].
  split; [| split].
  - intros fuel.
    apply (read_vector_hangs_on_wide_int (P := Sim.platform)
             32 (OUTX_L_XL (RegAddr := Sim.ds33_map)) set_a (Sim.running 3)
             (Sim.world (Sim.bus Sim.nobody 0 65534 1)) fuel).
    + lia.
    + rewrite Hstart. simpl. lia.
    + intros k _. rewrite quiet_never_available by apply Hquiet. lia.
  - intros fuel.
    apply (read_vector_hangs_on_wide_int (P := Sim.platform)
             32 (OUTX_L_G (RegAddr := Sim.ds33_map)) set_g (Sim.running 3)
             (Sim.world (Sim.bus Sim.nobody 0 65534 1)) fuel).
    + lia.
    + rewrite Hstart. simpl. lia.
    + intros k _. rewrite quiet_never_available by apply Hquiet. lia.
  - destruct (readAcc (P := Sim.platform) (R := Sim.ds33_map) 16 4
                (Sim.running 3) (Sim.world (Sim.bus Sim.nobody 0 65534 1)))
      as [[self' w'] |] eqn:Hrun.
    + vm_compute in Hrun. inversion Hrun; subst self' w'. clear Hrun.
      eexists. split; [reflexivity | vm_compute; reflexivity].
    + vm_compute in Hrun. discriminate Hrun.
Qed.
